(** * addon-framework: registration and liveness control plane

    A shallow embedding of the hub and spoke reconcilers of the add-on
    framework, and the properties of its specification that can be stated
    over it.

    Every reconciler is a Go function that talks to the API server through
    typed clients and reads informer caches through listers.  The embedding
    keeps that shape: a reconciler is a program ([Prog]) that issues client
    and lister calls ([Cmd]) and continues with whatever the call returned;
    a handler gives the calls their meaning.  Properties that do not depend
    on what the API server answers are proved for every handler; properties
    about converging storage are proved for the in-memory object tracker
    the repository's tests run against ([Fake]). *)

From Stdlib Require Import ZArith String List Lia Bool.
From stdpp Require Import base decidable option list gmap strings fin_maps pretty.

Set Default Proof Using "Type".

(* ===================================================================== *)
(** ** Go runtime values *)
(* ===================================================================== *)

Module Go.

(** API errors, by the classes the reconcilers tell apart
    (k8s.io/apimachinery/pkg/api/errors) and [fmt.Errorf] values. *)
Inductive error : Type :=
| ErrNotFound
| ErrAlreadyExists
| ErrConflict
| Errorf (msg : string).

#[global] Instance error_eq_dec : EqDecision error.
Proof. solve_decision. Defined.

(** The [(value, err)] pair every client call returns. *)
Inductive Res (A : Type) : Type :=
| Ok (a : A)
| Err (e : error).
Arguments Ok {A} a.
Arguments Err {A} e.

Definition IsNotFound (e : error) : bool :=
  match e with ErrNotFound => true | _ => false end.

Definition IsConflict (e : error) : bool :=
  match e with ErrConflict => true | _ => false end.

(** How a reconcile ends: it returns its [error] (nil is [None]), or the
    goroutine panics. *)
Inductive Outcome : Type :=
| Return (err : option error)
| Panic.

#[global] Instance Outcome_eq_dec : EqDecision Outcome.
Proof. solve_decision. Defined.

(** [int32] arithmetic wraps around. *)
Definition int32 (z : Z) : Z := ((z + 2 ^ 31) mod 2 ^ 32 - 2 ^ 31)%Z.

(** [time.Time] as nanoseconds since the zero instant; [time.Duration] as
    nanoseconds. *)
Definition Time : Type := Z.
Definition Duration : Type := Z.
Definition Second : Duration := 1000000000%Z.
Definition Add (t : Time) (d : Duration) : Time := (t + d)%Z.
Definition Before (t u : Time) : bool := (t <? u)%Z.
Definition IsZero (t : Time) : bool := (t =? 0)%Z.

(** [[]byte] *)
Definition bytes : Type := list Byte.byte.

#[global] Instance byte_eq_dec : EqDecision Byte.byte.
Proof. intros x y. destruct (Byte.byte_eq_dec x y); [left|right]; assumption. Defined.

End Go.

(* ===================================================================== *)
(** ** API objects *)
(* ===================================================================== *)

(** k8s.io/apimachinery/pkg/apis/meta/v1 *)
Module metav1.

Record ObjectMeta : Type := {
  Name : string;
  Namespace : string;
  ResourceVersion : string;
  Labels : gmap string string;
  Annotations : gmap string string;
  Finalizers : list string;
  (** [*metav1.Time]: nil is [None]. *)
  DeletionTimestamp : option Go.Time;
  (** names of the owners *)
  OwnerReferences : list string
}.

#[global] Instance ObjectMeta_eq_dec : EqDecision ObjectMeta.
Proof. solve_decision. Defined.

(** [IsZero] on a pointer to [metav1.Time]: nil, or the zero instant. *)
Definition DeletionTimestamp_IsZero (m : ObjectMeta) : bool :=
  match DeletionTimestamp m with
  | None => true
  | Some t => Go.IsZero t
  end.

Definition withFinalizers (m : ObjectMeta) (fs : list string) : ObjectMeta :=
  {| Name := Name m; Namespace := Namespace m;
     ResourceVersion := ResourceVersion m; Labels := Labels m;
     Annotations := Annotations m; Finalizers := fs;
     DeletionTimestamp := DeletionTimestamp m;
     OwnerReferences := OwnerReferences m |}.

Definition withAnnotations (m : ObjectMeta) (an : gmap string string) : ObjectMeta :=
  {| Name := Name m; Namespace := Namespace m;
     ResourceVersion := ResourceVersion m; Labels := Labels m;
     Annotations := an; Finalizers := Finalizers m;
     DeletionTimestamp := DeletionTimestamp m;
     OwnerReferences := OwnerReferences m |}.

Definition withResourceVersion (m : ObjectMeta) (rv : string) : ObjectMeta :=
  {| Name := Name m; Namespace := Namespace m;
     ResourceVersion := rv; Labels := Labels m;
     Annotations := Annotations m; Finalizers := Finalizers m;
     DeletionTimestamp := DeletionTimestamp m;
     OwnerReferences := OwnerReferences m |}.

(** An object that carries nothing but a name and a namespace. *)
Definition named (ns name : string) : ObjectMeta :=
  {| Name := name; Namespace := ns; ResourceVersion := "";
     Labels := ∅; Annotations := ∅; Finalizers := [];
     DeletionTimestamp := None; OwnerReferences := [] |}.

Definition ConditionTrue : string := "True".
Definition ConditionFalse : string := "False".
Definition ConditionUnknown : string := "Unknown".

Record Condition : Type := {
  Type_ : string;
  Status : string;
  Reason : string;
  Message : string;
  LastTransitionTime : Go.Time
}.

#[global] Instance Condition_eq_dec : EqDecision Condition.
Proof. solve_decision. Defined.

End metav1.

(** github.com/open-cluster-management/api/addon/v1alpha1 *)
Module addonapiv1alpha1.

Record ManagedClusterAddOnStatus : Type := {
  Conditions : list metav1.Condition;
  RelatedObjects : list string
}.

#[global] Instance ManagedClusterAddOnStatus_eq_dec : EqDecision ManagedClusterAddOnStatus.
Proof. solve_decision. Defined.

Record ManagedClusterAddOn : Type := {
  ObjectMeta : metav1.ObjectMeta;
  (** [Spec.InstallNamespace] *)
  Spec : string;
  Status : ManagedClusterAddOnStatus
}.

#[global] Instance ManagedClusterAddOn_eq_dec : EqDecision ManagedClusterAddOn.
Proof. solve_decision. Defined.

Definition withObjectMeta (a : ManagedClusterAddOn) (m : metav1.ObjectMeta) : ManagedClusterAddOn :=
  {| ObjectMeta := m; Spec := Spec a; Status := Status a |}.

Definition withStatus (a : ManagedClusterAddOn) (s : ManagedClusterAddOnStatus) : ManagedClusterAddOn :=
  {| ObjectMeta := ObjectMeta a; Spec := Spec a; Status := s |}.

(** [Spec.AddOnConfiguration] of a ClusterManagementAddOn. *)
Record ClusterManagementAddOn : Type := {
  cmaName : string;
  CRDName : string;
  CRName : string
}.

End addonapiv1alpha1.

(** github.com/open-cluster-management/api/cluster/v1 *)
Module clusterv1.

Record ManagedCluster : Type := {
  ObjectMeta : metav1.ObjectMeta;
  (** [Spec.LeaseDurationSeconds], an int32 *)
  LeaseDurationSeconds : Z
}.

#[global] Instance ManagedCluster_eq_dec : EqDecision ManagedCluster.
Proof. solve_decision. Defined.

End clusterv1.

(** github.com/open-cluster-management/api/work/v1 *)
Module workapiv1.

(** A manifest is a [runtime.RawExtension]; only its [Raw] bytes are used. *)
Record Manifest : Type := { Raw : Go.bytes }.

#[global] Instance Manifest_eq_dec : EqDecision Manifest.
Proof. solve_decision. Defined.

Record ManifestWork : Type := {
  ObjectMeta : metav1.ObjectMeta;
  (** [Spec.Workload.Manifests] *)
  Manifests : list Manifest
}.

#[global] Instance ManifestWork_eq_dec : EqDecision ManifestWork.
Proof. solve_decision. Defined.

Definition withResourceVersion (w : ManifestWork) (rv : string) : ManifestWork :=
  {| ObjectMeta := metav1.withResourceVersion (ObjectMeta w) rv;
     Manifests := Manifests w |}.

End workapiv1.

(** k8s.io/api/coordination/v1 *)
Module coordv1.

Record Lease : Type := {
  ObjectMeta : metav1.ObjectMeta;
  (** [Spec.HolderIdentity], a [*string] *)
  HolderIdentity : option string;
  (** [Spec.RenewTime], a [*metav1.MicroTime] *)
  RenewTime : option Go.Time
}.

#[global] Instance Lease_eq_dec : EqDecision Lease.
Proof. solve_decision. Defined.

End coordv1.

(** k8s.io/api/certificates/v1 *)
Module certificatesv1.

Definition CertificateApproved : string := "Approved".
Definition CertificateDenied : string := "Denied".
Definition KubeAPIServerClientSignerName : string := "kubernetes.io/kube-apiserver-client".

Record CertificateSigningRequestCondition : Type := {
  Type_ : string;
  Status : string;
  Reason : string;
  Message : string
}.

#[global] Instance CertificateSigningRequestCondition_eq_dec :
  EqDecision CertificateSigningRequestCondition.
Proof. solve_decision. Defined.

Record CertificateSigningRequest : Type := {
  ObjectMeta : metav1.ObjectMeta;
  (** [Spec] *)
  Request : Go.bytes;
  SignerName : string;
  Username : string;
  UID : string;
  Groups : list string;
  Extra : gmap string (list string);
  (** [Status.Conditions] *)
  Conditions : list CertificateSigningRequestCondition
}.

#[global] Instance CertificateSigningRequest_eq_dec : EqDecision CertificateSigningRequest.
Proof. solve_decision. Defined.

Definition withConditions (c : CertificateSigningRequest)
    (cs : list CertificateSigningRequestCondition) : CertificateSigningRequest :=
  {| ObjectMeta := ObjectMeta c; Request := Request c; SignerName := SignerName c;
     Username := Username c; UID := UID c; Groups := Groups c; Extra := Extra c;
     Conditions := cs |}.

End certificatesv1.

(** k8s.io/api/authorization/v1 *)
Module authorizationv1.

Record ResourceAttributes : Type := {
  Group : string;
  Resource : string;
  Verb : string;
  Subresource : string
}.

#[global] Instance ResourceAttributes_eq_dec : EqDecision ResourceAttributes.
Proof. solve_decision. Defined.

Record SubjectAccessReview : Type := {
  User : string;
  UID : string;
  Groups : list string;
  Extra : gmap string (list string);
  Attributes : ResourceAttributes;
  (** [Status.Allowed] *)
  Allowed : bool
}.

#[global] Instance SubjectAccessReview_eq_dec : EqDecision SubjectAccessReview.
Proof. solve_decision. Defined.

End authorizationv1.

(** k8s.io/apimachinery/pkg/runtime: an object is opaque to the framework. *)
Module runtime.

Inductive Object : Type :=
| Obj (kind : string) (content : Go.bytes).

#[global] Instance Object_eq_dec : EqDecision Object.
Proof. solve_decision. Defined.

(** [runtime.Encode(unstructured.UnstructuredJSONScheme, _)] *)
Class Codec : Type := { Encode : Object -> Go.Res Go.bytes }.

End runtime.

(** k8s.io/apimachinery/pkg/labels: selectors built from equality
    requirements, the only kind the framework builds. *)
Module labels.

Record Requirement : Type := { key : string; value : string }.

#[global] Instance Requirement_eq_dec : EqDecision Requirement.
Proof. solve_decision. Defined.

Definition Selector : Type := list Requirement.

Definition Matches (sel : Selector) (ls : gmap string string) : bool :=
  forallb (fun r => bool_decide (ls !! key r = Some (value r))) sel.

Definition isAlnum (a : Ascii.ascii) : bool :=
  let n := Ascii.nat_of_ascii a in
  ((48 <=? n) && (n <=? 57)) || ((65 <=? n) && (n <=? 90)) || ((97 <=? n) && (n <=? 122)).

Definition isValueChar (a : Ascii.ascii) : bool :=
  let n := Ascii.nat_of_ascii a in
  isAlnum a || (n =? 45) || (n =? 95) || (n =? 46).

(** [validation.IsValidLabelValue]: at most 63 bytes; empty, or alphanumeric
    at both ends with [-], [_], [.] and alphanumerics between. *)
Definition IsValidLabelValue (v : string) : bool :=
  let cs := list_ascii_of_string v in
  (length cs <=? 63) &&
  match cs with
  | [] => true
  | a :: _ => isAlnum a && isAlnum (List.last cs a) && forallb isValueChar cs
  end.

(** [labels.NewRequirement(key, selection.Equals, []string{value})] for a
    key that is a qualified name: the value is validated. *)
Definition NewRequirement (k v : string) : Go.Res Requirement :=
  if IsValidLabelValue v then Go.Ok {| key := k; value := v |}
  else Go.Err (Go.Errorf "invalid label value").

(** [labels.Parse], the selector parser. *)
Class Parser : Type := { Parse : string -> Go.Res Selector }.

End labels.

(* ===================================================================== *)
(** ** Reconcilers as programs over client and lister calls *)
(* ===================================================================== *)

Module rt.

(** The calls a reconciler makes on its listers (informer caches), on its
    clients (the API server), on the clock and on the event recorder. *)
Inductive Cmd : Type :=
| ClusterListerGet (name : string)
| ClusterListerList
| AddonListerGet (ns name : string)
| AddonListerList (ns : string)
| WorkListerList (ns : string) (sel : labels.Selector)
| LeaseListerGet (ns name : string)
| LeaseListerList (sel : labels.Selector)
| ConfigListerGet (ns name : string)
| AddonGet (ns name : string)
| AddonUpdate (ns : string) (a : addonapiv1alpha1.ManagedClusterAddOn)
| AddonUpdateStatus (ns : string) (a : addonapiv1alpha1.ManagedClusterAddOn)
| ClusterManagementAddOnGet (name : string)
| WorkGet (ns name : string)
| WorkCreate (ns : string) (w : workapiv1.ManifestWork)
| WorkUpdate (ns : string) (w : workapiv1.ManifestWork)
| WorkDelete (ns name : string)
| LeaseCreate (ns : string) (l : coordv1.Lease)
| CSRGet (name : string)
| CSRUpdateApproval (name : string) (csr : certificatesv1.CertificateSigningRequest)
| SubjectAccessReviewCreate (sar : authorizationv1.SubjectAccessReview)
| TimeNow
| Eventf (reason : string)
(** the spoke certificate manager: cancelling the rotation of an add-on and
    forgetting it, and building and starting a certificate manager *)
| StopRotate (addonName : string)
| StartCertificateManager (addonName signer bootstrapSecret secretName secretNamespace : string).

#[global] Instance Cmd_eq_dec : EqDecision Cmd.
Proof. solve_decision. Defined.

(** What each call returns. *)
Definition Resp (c : Cmd) : Type :=
  match c with
  | ClusterListerGet _ => Go.Res clusterv1.ManagedCluster
  | ClusterListerList => Go.Res (list clusterv1.ManagedCluster)
  | AddonListerGet _ _ => Go.Res addonapiv1alpha1.ManagedClusterAddOn
  | AddonListerList _ => Go.Res (list addonapiv1alpha1.ManagedClusterAddOn)
  | WorkListerList _ _ => Go.Res (list workapiv1.ManifestWork)
  | LeaseListerGet _ _ => Go.Res coordv1.Lease
  | LeaseListerList _ => Go.Res (list coordv1.Lease)
  | ConfigListerGet _ _ => Go.Res runtime.Object
  | AddonGet _ _ => Go.Res addonapiv1alpha1.ManagedClusterAddOn
  | AddonUpdate _ _ => Go.Res addonapiv1alpha1.ManagedClusterAddOn
  | AddonUpdateStatus _ _ => Go.Res addonapiv1alpha1.ManagedClusterAddOn
  | ClusterManagementAddOnGet _ => Go.Res addonapiv1alpha1.ClusterManagementAddOn
  | WorkGet _ _ => Go.Res workapiv1.ManifestWork
  | WorkCreate _ _ => Go.Res workapiv1.ManifestWork
  | WorkUpdate _ _ => Go.Res workapiv1.ManifestWork
  | WorkDelete _ _ => option Go.error
  | LeaseCreate _ _ => Go.Res coordv1.Lease
  | CSRGet _ => Go.Res certificatesv1.CertificateSigningRequest
  | CSRUpdateApproval _ _ => Go.Res certificatesv1.CertificateSigningRequest
  | SubjectAccessReviewCreate _ => Go.Res authorizationv1.SubjectAccessReview
  | TimeNow => Go.Time
  | Eventf _ => unit
  | StopRotate _ => unit
  | StartCertificateManager _ _ _ _ _ => option Go.error
  end.

(** The calls that ask the API server to change something. *)
Definition isWrite (c : Cmd) : bool :=
  match c with
  | AddonUpdate _ _ | AddonUpdateStatus _ _
  | WorkCreate _ _ | WorkUpdate _ _ | WorkDelete _ _
  | LeaseCreate _ _ | CSRUpdateApproval _ _
  | SubjectAccessReviewCreate _ | Eventf _
  | StartCertificateManager _ _ _ _ _ => true
  | _ => false
  end.

Inductive Prog (A : Type) : Type :=
| Ret (a : A)
| Call (c : Cmd) (k : Resp c -> Prog A).
Arguments Ret {A} a.
Arguments Call {A} c k.

Fixpoint bind {A B : Type} (p : Prog A) (f : A -> Prog B) : Prog B :=
  match p with
  | Ret a => f a
  | Call c k => Call c (fun r => bind (k r) f)
  end.

Definition call (c : Cmd) : Prog (Resp c) := Call c Ret.

(** A handler answers every call, threading the state of the world. *)
Definition Handler (W : Type) : Type := forall c : Cmd, W -> Resp c * W.

(** Running a program: its result, the world it leaves, and the calls it
    made, in order. *)
Fixpoint run {W A : Type} (h : Handler W) (p : Prog A) (w : W) : A * W * list Cmd :=
  match p with
  | Ret a => (a, w, [])
  | Call c k =>
      let '(r, w1) := h c w in
      let '(a, w2, tr) := run h (k r) w1 in
      (a, w2, c :: tr)
  end.

Definition result {W A : Type} (h : Handler W) (p : Prog A) (w : W) : A := (run h p w).1.1.
Definition final {W A : Type} (h : Handler W) (p : Prog A) (w : W) : W := (run h p w).1.2.
Definition trace {W A : Type} (h : Handler W) (p : Prog A) (w : W) : list Cmd := (run h p w).2.
Definition writes {W A : Type} (h : Handler W) (p : Prog A) (w : W) : list Cmd :=
  List.filter isWrite (trace h p w).

(** [err] of a [(value, err)] pair. *)
Definition errOf {A : Type} (r : Go.Res A) : option Go.error :=
  match r with Go.Ok _ => None | Go.Err e => Some e end.

(** A [for ... range] loop whose body may [continue] ([None]) or leave the
    function ([Some]). *)
Fixpoint rangeLoop {A R : Type} (xs : list A) (body : A -> Prog (option R))
    (after : Prog R) : Prog R :=
  match xs with
  | [] => after
  | x :: xs' =>
      bind (body x) (fun r =>
        match r with
        | Some o => Ret o
        | None => rangeLoop xs' body after
        end)
  end.

End rt.

Notation "x <- p ;; q" := (rt.bind p (fun x => q))
  (at level 20, p at level 99, q at level 200, only parsing).

(* ===================================================================== *)
(** ** Library helpers the reconcilers call *)
(* ===================================================================== *)

(** k8s.io/apimachinery/pkg/api/meta (conditions) *)
Module meta.

(** [FindStatusCondition]: the first condition of the given type. *)
Fixpoint FindStatusCondition (conditions : list metav1.Condition) (conditionType : string)
    : option metav1.Condition :=
  match conditions with
  | [] => None
  | c :: rest =>
      if decide (metav1.Type_ c = conditionType) then Some c
      else FindStatusCondition rest conditionType
  end.

(** Assignment through the pointer [FindStatusCondition] returns: the first
    condition of the type is replaced in place. *)
Fixpoint setExisting (conditions : list metav1.Condition) (conditionType : string)
    (f : metav1.Condition -> metav1.Condition) : list metav1.Condition :=
  match conditions with
  | [] => []
  | c :: rest =>
      if decide (metav1.Type_ c = conditionType) then f c :: rest
      else c :: setExisting rest conditionType f
  end.

Definition withTransition (c : metav1.Condition) (status : string) (t : Go.Time) : metav1.Condition :=
  {| metav1.Type_ := metav1.Type_ c; metav1.Status := status;
     metav1.Reason := metav1.Reason c; metav1.Message := metav1.Message c;
     metav1.LastTransitionTime := t |}.

Definition withReasonMessage (c : metav1.Condition) (reason message : string) : metav1.Condition :=
  {| metav1.Type_ := metav1.Type_ c; metav1.Status := metav1.Status c;
     metav1.Reason := reason; metav1.Message := message;
     metav1.LastTransitionTime := metav1.LastTransitionTime c |}.

(** [SetStatusCondition]: a condition of a new type is appended, stamped
    with the current time when it carries none; an existing one gets the
    new reason and message, and the new status and a transition time when
    the status changes. *)
Definition SetStatusCondition (conditions : list metav1.Condition)
    (newCondition : metav1.Condition) : rt.Prog (list metav1.Condition) :=
  match FindStatusCondition conditions (metav1.Type_ newCondition) with
  | None =>
      if Go.IsZero (metav1.LastTransitionTime newCondition) then
        now <- rt.call rt.TimeNow ;;
        rt.Ret (conditions ++
                [withTransition newCondition (metav1.Status newCondition) now])
      else rt.Ret (conditions ++ [newCondition])
  | Some existingCondition =>
      let finish := fun c =>
        withReasonMessage c (metav1.Reason newCondition) (metav1.Message newCondition) in
      if decide (metav1.Status existingCondition = metav1.Status newCondition) then
        rt.Ret (setExisting conditions (metav1.Type_ newCondition) finish)
      else if negb (Go.IsZero (metav1.LastTransitionTime newCondition)) then
        rt.Ret (setExisting conditions (metav1.Type_ newCondition) (fun c =>
          finish (withTransition c (metav1.Status newCondition)
                    (metav1.LastTransitionTime newCondition))))
      else
        now <- rt.call rt.TimeNow ;;
        rt.Ret (setExisting conditions (metav1.Type_ newCondition) (fun c =>
          finish (withTransition c (metav1.Status newCondition) now)))
  end.

End meta.

(** k8s.io/client-go/util/retry *)
Module retry.

(** [DefaultBackoff.Steps] *)
Definition DefaultBackoffSteps : nat := 4.

(** [OnError] over [wait.ExponentialBackoff]: [fn] runs until it returns
    nil or an error that is not retriable, at most [steps] times; when the
    steps run out the last retriable error is returned.  [s] is the state
    of the variables [fn] captures.  The sleeps between the runs are left
    out. *)
Fixpoint OnError {S : Type} (steps : nat) (retriable : Go.error -> bool)
    (fn : S -> rt.Prog (S * option Go.error)) (s : S) (lastErr : option Go.error)
    : rt.Prog (S * option Go.error) :=
  match steps with
  | O => rt.Ret (s, lastErr)
  | Datatypes.S n =>
      r <- fn s ;;
      match r.2 with
      | None => rt.Ret (r.1, None)
      | Some e =>
          if retriable e then OnError n retriable fn r.1 (Some e)
          else rt.Ret (r.1, Some e)
      end
  end.

Definition RetryOnConflict {S : Type} (steps : nat)
    (fn : S -> rt.Prog (S * option Go.error)) (s : S) : rt.Prog (S * option Go.error) :=
  OnError steps Go.IsConflict fn s None.

End retry.

(** github.com/openshift/library-go/pkg/operator/resource/resourcemerge *)
Module resourcemerge.

(** [MergeMap]: every required entry the existing map does not already have
    is written into it, and [modified] is raised.  (None of the keys the
    framework merges asks for a removal.) *)
Definition MergeMap (existing required : gmap string string) : bool * gmap string string :=
  map_fold
    (fun k v (acc : bool * gmap string string) =>
       if decide (acc.2 !! k = Some v) then acc else (true, <[k:=v]> acc.2))
    (false, existing) required.

End resourcemerge.

(** pkg/helpers *)
Module helpers.

(** [for i := range new]: compare the raw bytes position by position. *)
Fixpoint rawEqualFrom (new old : list workapiv1.Manifest) (i : nat) (n : nat) : bool :=
  match n with
  | O => true
  | S n' =>
      if decide (workapiv1.Raw <$> new !! i = workapiv1.Raw <$> old !! i)
      then rawEqualFrom new old (S i) n'
      else false
  end.

Definition ManifestsEqual (new old : list workapiv1.Manifest) : bool :=
  if negb (length new =? length old) then false
  else rawEqualFrom new old 0 (length new).

Definition UpdateAddonStatusFunc : Type :=
  addonapiv1alpha1.ManagedClusterAddOnStatus ->
  rt.Prog (Go.Res addonapiv1alpha1.ManagedClusterAddOnStatus).

(** [for _, update := range updateFuncs], on the copy of the status. *)
Fixpoint applyUpdates (updateFuncs : list UpdateAddonStatusFunc)
    (newStatus : addonapiv1alpha1.ManagedClusterAddOnStatus)
    : rt.Prog (Go.Res addonapiv1alpha1.ManagedClusterAddOnStatus) :=
  match updateFuncs with
  | [] => rt.Ret (Go.Ok newStatus)
  | update :: rest =>
      r <- update newStatus ;;
      match r with
      | Go.Err e => rt.Ret (Go.Err e)
      | Go.Ok s => applyUpdates rest s
      end
  end.

(** The variables the retried closure captures:
    [updatedManagedClusterStatus] and [updated]. *)
Definition captured : Type := option addonapiv1alpha1.ManagedClusterAddOnStatus * bool.

(** The closure handed to [retry.RetryOnConflict]. *)
Definition updateAttempt (spokeClusterName addonName : string)
    (updateFuncs : list UpdateAddonStatusFunc) (cap : captured)
    : rt.Prog (captured * option Go.error) :=
  r <- rt.call (rt.AddonGet spokeClusterName addonName) ;;
  match r with
  | Go.Err e => rt.Ret (cap, Some e)
  | Go.Ok addon =>
      let oldStatus := addonapiv1alpha1.Status addon in
      r <- applyUpdates updateFuncs oldStatus ;;
      match r with
      | Go.Err e => rt.Ret (cap, Some e)
      | Go.Ok newStatus =>
          if decide (oldStatus = newStatus) then
            rt.Ret ((Some newStatus, cap.2), None)
          else
            r <- rt.call (rt.AddonUpdateStatus spokeClusterName
                            (addonapiv1alpha1.withStatus addon newStatus)) ;;
            match r with
            | Go.Err e => rt.Ret (cap, Some e)
            | Go.Ok updatedManagedCluster =>
                rt.Ret ((Some (addonapiv1alpha1.Status updatedManagedCluster), true), None)
            end
      end
  end.

Definition UpdateAddonStatus (spokeClusterName addonName : string)
    (updateFuncs : list UpdateAddonStatusFunc)
    : rt.Prog (option addonapiv1alpha1.ManagedClusterAddOnStatus * bool * option Go.error) :=
  r <- retry.RetryOnConflict retry.DefaultBackoffSteps
         (updateAttempt spokeClusterName addonName updateFuncs) (None, false) ;;
  rt.Ret (r.1.1, r.1.2, r.2).

(** What is left of a call of [UpdateAddonStatus] when the closure may run
    [steps] more times and the last run, if any, ended in [lastErr]. *)
Definition UpdateAddonStatusFrom (steps : nat) (lastErr : option Go.error)
    (spokeClusterName addonName : string) (updateFuncs : list UpdateAddonStatusFunc)
    : rt.Prog (option addonapiv1alpha1.ManagedClusterAddOnStatus * bool * option Go.error) :=
  r <- retry.OnError steps Go.IsConflict
         (updateAttempt spokeClusterName addonName updateFuncs) (None, false) lastErr ;;
  rt.Ret (r.1.1, r.1.2, r.2).

Definition UpdateAddonConditionFn (cond : metav1.Condition) : UpdateAddonStatusFunc :=
  fun oldStatus =>
    cs <- meta.SetStatusCondition (addonapiv1alpha1.Conditions oldStatus) cond ;;
    rt.Ret (Go.Ok {| addonapiv1alpha1.Conditions := cs;
                     addonapiv1alpha1.RelatedObjects :=
                       addonapiv1alpha1.RelatedObjects oldStatus |}).

Definition AgentGroup (clusterName addonName : string) : string :=
  "system:open-cluster-management:cluster:" +:+ clusterName +:+ ":addon:" +:+ addonName.

Definition AgentUser (clusterName agentName addonName : string) : string :=
  AgentGroup clusterName addonName +:+ ":agent:" +:+ agentName.

Definition AgentCSRGenerateName (clusterName addonName : string) : string :=
  "addon-" +:+ addonName +:+ "-" +:+ clusterName.

End helpers.

(* ===================================================================== *)
(** ** The add-on interface (pkg/addoninterface) *)
(* ===================================================================== *)

Module addoninterface.

Record AgentAddon : Type := {
  AgentManifests :
    clusterv1.ManagedCluster -> option runtime.Object ->
    list runtime.Object * option Go.error
}.

Record AgentAddonWithRegistration : Type := {
  Agent : AgentAddon;
  AgentBootstrapKubeConfig : clusterv1.ManagedCluster -> Go.Res Go.bytes
}.

Definition CSRApproveCheckFunc : Type :=
  certificatesv1.CertificateSigningRequest -> bool.

End addoninterface.

(** Finalizer lists, as every reconciler walks them. *)
Module finalizers.

(** [for i := range fs { if fs[i] == f { has = true; break } }] *)
Fixpoint has (fs : list string) (f : string) : bool :=
  match fs with
  | [] => false
  | x :: rest => if decide (x = f) then true else has rest f
  end.

(** [copied := []string{}; for i := range fs { if fs[i] == f { continue };
    copied = append(copied, fs[i]) }] *)
Definition copyExcept (fs : list string) (f : string) : list string :=
  fold_left (fun copied x => if decide (x = f) then copied else copied ++ [x]) fs [].

End finalizers.

(* ===================================================================== *)
(** ** Hub: the deploy reconciler (pkg/addonmanager/agentdeploy/controller.go) *)
(* ===================================================================== *)

Module deploy.

Definition AddonWorkLabel : string := "open-cluster-management.io/addon-name".
Definition addonFinalizer : string := "addon.open-cluster-management.io/work-cleanup".

Record addonDeployController : Type := {
  agentAddon : addoninterface.AgentAddon;
  addonName : string;
  (** whether [configLister] was set, which [NewAddonDeployController]
      does only when it is given a configuration resource *)
  configLister : bool
}.

Section WithCodec.
Context `{runtime.Codec}.

Definition getAddonConfig (c : addonDeployController) (crdName crName clusterName : string)
    : rt.Prog (option (Go.Res (option runtime.Object))) :=
  if decide (crdName = "") then rt.Ret (Some (Go.Ok None))
  else if decide (crName = "") then rt.Ret (Some (Go.Ok None))
  else if configLister c then
    r <- rt.call (rt.ConfigListerGet clusterName crName) ;;
    match r with
    | Go.Err e => rt.Ret (Some (Go.Err e))
    | Go.Ok config => rt.Ret (Some (Go.Ok (Some config)))
    end
  else rt.Ret None.

(** [for _, object := range objects]: encode and append. *)
Fixpoint encodeInto (objects : list runtime.Object) (manifests : list workapiv1.Manifest)
    : Go.Res (list workapiv1.Manifest) :=
  match objects with
  | [] => Go.Ok manifests
  | object :: rest =>
      match runtime.Encode object with
      | Go.Err e => Go.Err e
      | Go.Ok rawObject => encodeInto rest (manifests ++ [ {| workapiv1.Raw := rawObject |} ])
      end
  end.

Definition workMeta (c : addonDeployController) (cluster : string) : metav1.ObjectMeta :=
  {| metav1.Name := "addon-" +:+ addonName c +:+ "-deploy";
     metav1.Namespace := cluster;
     metav1.ResourceVersion := "";
     metav1.Labels := {[ AddonWorkLabel := addonName c ]};
     metav1.Annotations := ∅;
     metav1.Finalizers := [];
     metav1.DeletionTimestamp := None;
     metav1.OwnerReferences := [] |}.

(** The work as it is when the loop over the objects is through. *)
Definition builtWork (c : addonDeployController) (cluster : string)
    (manifests : list workapiv1.Manifest) : workapiv1.ManifestWork :=
  {| workapiv1.ObjectMeta := workMeta c cluster; workapiv1.Manifests := manifests |}.

Definition buildManifestWorkFromObject (c : addonDeployController) (cluster : string)
    (objects : list runtime.Object) : Go.Res (option workapiv1.ManifestWork) :=
  if (length objects =? 0)%nat then Go.Ok None
  else
    match encodeInto objects [] with
    | Go.Err e => Go.Err e
    | Go.Ok manifests => Go.Ok (Some (builtWork c cluster manifests))
    end.

(** [for _, work := range works]: delete the ones not yet being deleted;
    what [Delete] returns is dropped. *)
Fixpoint deleteWorks (clusterName : string) (works : list workapiv1.ManifestWork)
    : rt.Prog unit :=
  match works with
  | [] => rt.Ret tt
  | work :: rest =>
      if metav1.DeletionTimestamp_IsZero (workapiv1.ObjectMeta work) then
        _ <- rt.call (rt.WorkDelete clusterName (metav1.Name (workapiv1.ObjectMeta work))) ;;
        deleteWorks clusterName rest
      else deleteWorks clusterName rest
  end.

Definition removeAddonResources (c : addonDeployController)
    (cluster : clusterv1.ManagedCluster) : rt.Prog Go.Outcome :=
  match labels.NewRequirement AddonWorkLabel (addonName c) with
  | Go.Err _ => rt.Ret Go.Panic
  | Go.Ok selector =>
      let clusterName := metav1.Name (clusterv1.ObjectMeta cluster) in
      r <- rt.call (rt.WorkListerList clusterName [selector]) ;;
      match r with
      | Go.Err e => rt.Ret (Go.Return (Some e))
      | Go.Ok works =>
          if (length works =? 0)%nat then rt.Ret (Go.Return None)
          else
            _ <- deleteWorks clusterName works ;;
            rt.Ret (Go.Return (Some (Go.Errorf
              (pretty (length works) +:+ " of work relating to the addon " +:+
               addonName c +:+ " is still being deleted"))))
      end
  end.

Definition removeAddonFinalizer (c : addonDeployController)
    (addon : addonapiv1alpha1.ManagedClusterAddOn) : rt.Prog (option Go.error) :=
  let m := addonapiv1alpha1.ObjectMeta addon in
  let copiedFinalizers := finalizers.copyExcept (metav1.Finalizers m) addonFinalizer in
  if negb (length (metav1.Finalizers m) =? length copiedFinalizers)%nat then
    r <- rt.call (rt.AddonUpdate (metav1.Namespace m)
           (addonapiv1alpha1.withObjectMeta addon (metav1.withFinalizers m copiedFinalizers))) ;;
    rt.Ret (rt.errOf r)
  else rt.Ret None.

(** [// apply work]: create the work, or update it when its manifests
    differ from the existing ones. *)
Definition createOrUpdate (clusterName : string) (work : workapiv1.ManifestWork)
    : rt.Prog Go.Outcome :=
  r <- rt.call (rt.WorkGet clusterName (metav1.Name (workapiv1.ObjectMeta work))) ;;
  match r with
  | Go.Err e =>
      if Go.IsNotFound e then
        r <- rt.call (rt.WorkCreate clusterName work) ;;
        rt.Ret (Go.Return (rt.errOf r))
      else rt.Ret (Go.Return (Some e))
  | Go.Ok existingWork =>
      if helpers.ManifestsEqual (workapiv1.Manifests existingWork) (workapiv1.Manifests work)
      then rt.Ret (Go.Return None)
      else
        r <- rt.call (rt.WorkUpdate clusterName
               (workapiv1.withResourceVersion work
                  (metav1.ResourceVersion (workapiv1.ObjectMeta existingWork)))) ;;
        rt.Ret (Go.Return (rt.errOf r))
  end.

(** The tail of [sync]: the add-on is neither new nor being deleted. *)
Definition applyWork (c : addonDeployController) (clusterName : string)
    (managedCluster : clusterv1.ManagedCluster) : rt.Prog Go.Outcome :=
  r <- rt.call (rt.ClusterManagementAddOnGet (addonName c)) ;;
  match r with
  | Go.Err e => rt.Ret (Go.Return (Some e))
  | Go.Ok clusterManagement =>
      r <- getAddonConfig c (addonapiv1alpha1.CRDName clusterManagement)
             (addonapiv1alpha1.CRName clusterManagement) clusterName ;;
      match r with
      | None => rt.Ret Go.Panic
      | Some (Go.Err e) => rt.Ret (Go.Return (Some e))
      | Some (Go.Ok config) =>
          (* the error of the supplier is overwritten by the next assignment *)
          let objects := (addoninterface.AgentManifests (agentAddon c) managedCluster config).1 in
          match buildManifestWorkFromObject c clusterName objects with
          | Go.Err e => rt.Ret (Go.Return (Some e))
          | Go.Ok None => rt.Ret (Go.Return None)
          | Go.Ok (Some work) => createOrUpdate clusterName work
          end
      end
  end.

Definition sync (c : addonDeployController) (clusterName : string) : rt.Prog Go.Outcome :=
  r <- rt.call (rt.ClusterListerGet clusterName) ;;
  match r with
  | Go.Err e => rt.Ret (Go.Return (if Go.IsNotFound e then None else Some e))
  | Go.Ok managedCluster =>
      r <- rt.call (rt.AddonListerGet clusterName (addonName c)) ;;
      match r with
      | Go.Err e => rt.Ret (Go.Return (if Go.IsNotFound e then None else Some e))
      | Go.Ok managedClusterAddon =>
          let m := addonapiv1alpha1.ObjectMeta managedClusterAddon in
          if metav1.DeletionTimestamp_IsZero m
             && negb (finalizers.has (metav1.Finalizers m) addonFinalizer)
          then
            r <- rt.call (rt.AddonUpdate clusterName
                   (addonapiv1alpha1.withObjectMeta managedClusterAddon
                      (metav1.withFinalizers m (metav1.Finalizers m ++ [addonFinalizer])))) ;;
            rt.Ret (Go.Return (rt.errOf r))
          else if negb (metav1.DeletionTimestamp_IsZero m) then
            o <- removeAddonResources c managedCluster ;;
            match o with
            | Go.Return None =>
                e <- removeAddonFinalizer c managedClusterAddon ;;
                rt.Ret (Go.Return e)
            | _ => rt.Ret o
            end
          else applyWork c clusterName managedCluster
      end
  end.

End WithCodec.

End deploy.

(* ===================================================================== *)
(** ** Hub: the config annotator
       (pkg/addonmanager/agentdeploy/config_controller.go) *)
(* ===================================================================== *)

Module config.

Record addonConfigController : Type := {
  addonName : string;
  signer : string;
  enableRegistration : bool;
  addonInstallNamespace : string;
  agentAddon : addoninterface.AgentAddonWithRegistration
}.

(** The constructor takes no signer: the field keeps its zero value. *)
Definition NewAddonConfigController (addonName : string) (enableRegistration : bool)
    (addonInstallNamespace : string) (agentAddon : addoninterface.AgentAddonWithRegistration)
    : addonConfigController :=
  {| addonName := addonName;
     signer := "";
     enableRegistration := enableRegistration;
     addonInstallNamespace := addonInstallNamespace;
     agentAddon := agentAddon |}.

(** [annotationData] before the bootstrap kubeconfig is looked at. *)
Definition registrationData (c : addonConfigController) : gmap string string :=
  if enableRegistration c then
    <["enable_registration" := "true"]>
      (<["installNamespace" := addonInstallNamespace c]>
         (<["signer" := signer c]> ∅))
  else <["enable_registration" := "false"]> ∅.

(** [annotationData] as it is merged. *)
Definition annotationData (c : addonConfigController) (kubeConfigData : Go.bytes)
    : gmap string string :=
  if (0 <? length kubeConfigData)%nat then
    <["bootstrapSecret" := addonName c +:+ "-bootstrap-kubeconfig"]> (registrationData c)
  else registrationData c.

Definition sync (c : addonConfigController) (addonNameSpace : string)
    : rt.Prog (option Go.error) :=
  r <- rt.call (rt.AddonListerGet addonNameSpace (addonName c)) ;;
  match r with
  | Go.Err e => rt.Ret (if Go.IsNotFound e then None else Some e)
  | Go.Ok addon =>
      r <- rt.call (rt.ClusterListerGet addonNameSpace) ;;
      match r with
      | Go.Err e => rt.Ret (if Go.IsNotFound e then None else Some e)
      | Go.Ok cluster =>
          match addoninterface.AgentBootstrapKubeConfig (agentAddon c) cluster with
          | Go.Err e => rt.Ret (Some e)
          | Go.Ok kubeConfigData =>
              let m := addonapiv1alpha1.ObjectMeta addon in
              let merged :=
                resourcemerge.MergeMap (metav1.Annotations m) (annotationData c kubeConfigData) in
              if negb merged.1 then rt.Ret None
              else
                r <- rt.call (rt.AddonUpdate addonNameSpace
                       (addonapiv1alpha1.withObjectMeta addon
                          (metav1.withAnnotations m merged.2))) ;;
                rt.Ret (rt.errOf r)
          end
      end
  end.

End config.

(* ===================================================================== *)
(** ** Hub: registration (pkg/addonmanager/registration) *)
(* ===================================================================== *)

(** agentdeploy.go: the registration finalizer *)
Module registrationdeploy.

Definition registrationFinalizer : string :=
  "addon.open-cluster-management.io/registration-cleanup".

Definition removeRegistrationFinalizer (addon : addonapiv1alpha1.ManagedClusterAddOn)
    : rt.Prog (option Go.error) :=
  let m := addonapiv1alpha1.ObjectMeta addon in
  let copiedFinalizers := finalizers.copyExcept (metav1.Finalizers m) registrationFinalizer in
  if negb (length (metav1.Finalizers m) =? length copiedFinalizers)%nat then
    r <- rt.call (rt.AddonUpdate (metav1.Namespace m)
           (addonapiv1alpha1.withObjectMeta addon (metav1.withFinalizers m copiedFinalizers))) ;;
    rt.Ret (rt.errOf r)
  else rt.Ret None.

End registrationdeploy.

(** encoding/pem and crypto/x509, as far as the approver looks into a
    request *)
Module x509.

Record Block : Type := { Type_ : string; Bytes : Go.bytes }.

Record CertificateRequest : Type := {
  Organization : list string;
  CommonName : string
}.

Class Lib : Type := {
  (** [pem.Decode]: the first block, or nil *)
  Decode : Go.bytes -> option Block;
  ParseCertificateRequest : Go.bytes -> Go.Res CertificateRequest
}.

End x509.

(** csrapprove.go *)
Module csrapprove.

Definition spokeClusterNameLabel : string := "open-cluster-management.io/cluster-name".

Record csrApprovingController : Type := {
  approveCheckFuncs : list addoninterface.CSRApproveCheckFunc;
  renewCheckFuncs : list addoninterface.CSRApproveCheckFunc;
  signer : string;
  addonName : string
}.

(** Check whether a CSR is in terminal state *)
Fixpoint terminalIn (conditions : list certificatesv1.CertificateSigningRequestCondition) : bool :=
  match conditions with
  | [] => false
  | c :: rest =>
      if decide (certificatesv1.Type_ c = certificatesv1.CertificateApproved) then true
      else if decide (certificatesv1.Type_ c = certificatesv1.CertificateDenied) then true
      else terminalIn rest
  end.

Definition IsCSRInTerminalState (csr : certificatesv1.CertificateSigningRequest) : bool :=
  terminalIn (certificatesv1.Conditions csr).

Fixpoint approvedIn (conditions : list certificatesv1.CertificateSigningRequestCondition)
    (approved : bool) : bool :=
  match conditions with
  | [] => approved
  | condition :: rest =>
      if decide (certificatesv1.Type_ condition = certificatesv1.CertificateDenied) then false
      else if decide (certificatesv1.Type_ condition = certificatesv1.CertificateApproved)
      then approvedIn rest true
      else approvedIn rest approved
  end.

Definition isCSRApproved (csr : certificatesv1.CertificateSigningRequest) : bool :=
  approvedIn (certificatesv1.Conditions csr) false.

Section WithX509.
Context `{x509.Lib}.

Definition isSpokeClusterClientCertRenewal (signer addonName : string)
    (csr : certificatesv1.CertificateSigningRequest) : bool :=
  match metav1.Labels (certificatesv1.ObjectMeta csr) !! spokeClusterNameLabel with
  | None => false
  | Some spokeClusterName =>
      if negb (String.length (certificatesv1.SignerName csr) =? 0)%nat
         && negb (bool_decide (certificatesv1.SignerName csr = signer))
      then false
      else
        match x509.Decode (certificatesv1.Request csr) with
        | None => false
        | Some block =>
            if negb (bool_decide (x509.Type_ block = "CERTIFICATE REQUEST")) then false
            else
              match x509.ParseCertificateRequest (x509.Bytes block) with
              | Go.Err _ => false
              | Go.Ok x509cr =>
                  match x509.Organization x509cr with
                  | [organization] =>
                      if negb (bool_decide
                                 (organization = helpers.AgentGroup spokeClusterName addonName))
                      then false
                      else if negb (String.prefix organization (x509.CommonName x509cr))
                      then false
                      else bool_decide (certificatesv1.Username csr = x509.CommonName x509cr)
                  | _ => false
                  end
              end
        end
  end.

Definition NewCSRApprovingController (signer addonName : string)
    (checkFuncs : list addoninterface.CSRApproveCheckFunc) : csrApprovingController :=
  {| approveCheckFuncs := checkFuncs;
     renewCheckFuncs :=
       [IsCSRInTerminalState] ++ [isSpokeClusterClientCertRenewal signer addonName];
     signer := signer;
     addonName := addonName |}.

(** [var approved bool; for _, check := range checks { approved = check(csr);
    if !approved { break } }] *)
Fixpoint runChecks (checks : list addoninterface.CSRApproveCheckFunc)
    (csr : certificatesv1.CertificateSigningRequest) (approved : bool) : bool :=
  match checks with
  | [] => approved
  | check :: rest => if check csr then runChecks rest csr true else false
  end.

Definition authorize (addonName : string) (csr : certificatesv1.CertificateSigningRequest)
    : rt.Prog (Go.Res bool) :=
  let sar :=
    {| authorizationv1.User := certificatesv1.Username csr;
       authorizationv1.UID := certificatesv1.UID csr;
       authorizationv1.Groups := certificatesv1.Groups csr;
       authorizationv1.Extra := certificatesv1.Extra csr;
       authorizationv1.Attributes :=
         {| authorizationv1.Group := "register.open-cluster-management.io";
            authorizationv1.Resource := addonName;
            authorizationv1.Verb := "renew";
            authorizationv1.Subresource := "clientcertificates" |};
       authorizationv1.Allowed := false |} in
  r <- rt.call (rt.SubjectAccessReviewCreate sar) ;;
  match r with
  | Go.Err e => rt.Ret (Go.Err e)
  | Go.Ok sar => rt.Ret (Go.Ok (authorizationv1.Allowed sar))
  end.

Definition approvedCondition : certificatesv1.CertificateSigningRequestCondition :=
  {| certificatesv1.Type_ := certificatesv1.CertificateApproved;
     certificatesv1.Status := "True";
     certificatesv1.Reason := "AutoApprovedByHubCSRApprovingController";
     certificatesv1.Message :=
       "Auto approving addon agent certificate after SubjectAccessReview." |}.

(** The end of [sync]: append the condition and commit it. *)
Definition approve (csr : certificatesv1.CertificateSigningRequest) : rt.Prog (option Go.error) :=
  let csr := certificatesv1.withConditions csr
               (certificatesv1.Conditions csr ++ [approvedCondition]) in
  r <- rt.call (rt.CSRUpdateApproval (metav1.Name (certificatesv1.ObjectMeta csr)) csr) ;;
  match r with
  | Go.Err e => rt.Ret (Some e)
  | Go.Ok _ =>
      _ <- rt.call (rt.Eventf "AddonCSRAutoApproved") ;;
      rt.Ret None
  end.

Definition sync (c : csrApprovingController) (csrName : string) : rt.Prog (option Go.error) :=
  r <- rt.call (rt.CSRGet csrName) ;;
  match r with
  | Go.Err e => rt.Ret (if Go.IsNotFound e then None else Some e)
  | Go.Ok csr =>
      if isCSRApproved csr then rt.Ret None
      else
        let approved := runChecks (approveCheckFuncs c) csr false in
        let renewApproved := runChecks (renewCheckFuncs c) csr false in
        if negb approved && negb renewApproved then rt.Ret None
        else if renewApproved then
          r <- authorize (addonName c) csr ;;
          match r with
          | Go.Err e => rt.Ret (Some e)
          | Go.Ok allowed => if negb allowed then rt.Ret None else approve csr
          end
        else approve csr
  end.

End WithX509.

End csrapprove.

(* ===================================================================== *)
(** ** Hub: the liveness reconciler (the hub lease controller) *)
(* ===================================================================== *)

Module hublease.

Definition leaseDurationTimes : Z := 5.

Definition leaseName : string := "addon-lease".

Definition newLease (clusterName : string) (now : Go.Time) : coordv1.Lease :=
  {| coordv1.ObjectMeta :=
       {| metav1.Name := leaseName;
          metav1.Namespace := clusterName;
          metav1.ResourceVersion := "";
          metav1.Labels := {[ "addon.open-cluster-management.io/cluster-name" := clusterName ]};
          metav1.Annotations := ∅;
          metav1.Finalizers := [];
          metav1.DeletionTimestamp := None;
          metav1.OwnerReferences := [] |};
     coordv1.HolderIdentity := Some leaseName;
     coordv1.RenewTime := Some now |}.

Definition unknownCondition : metav1.Condition :=
  {| metav1.Type_ := "Available";
     metav1.Status := metav1.ConditionUnknown;
     metav1.Reason := "AddonManagerUpdateStopped";
     metav1.Message := "Addon manager stopped updating its lease.";
     metav1.LastTransitionTime := 0%Z |}.

(** [time.Duration(leaseDurationTimes*leaseDurationSeconds) * time.Second]:
    the product of the seconds is an int32 product; the duration, an int64,
    has room for any int32 times [time.Second]. *)
Definition gracePeriodOf (leaseDurationSeconds : Z) : Go.Duration :=
  (Go.int32 (leaseDurationTimes * leaseDurationSeconds) * Go.Second)%Z.

(** The body of [for _, addon := range addons]. *)
Definition markUnknown (clusterName : string) (addon : addonapiv1alpha1.ManagedClusterAddOn)
    : rt.Prog (option (option Go.Outcome)) :=
  r <- helpers.UpdateAddonStatus clusterName
         (metav1.Name (addonapiv1alpha1.ObjectMeta addon))
         [helpers.UpdateAddonConditionFn unknownCondition] ;;
  match r.2 with
  | Some e => rt.Ret (Some (Some (Go.Return (Some e))))
  | None =>
      if r.1.2 then
        _ <- rt.call (rt.Eventf "AddonAvailableConditionUpdated") ;;
        rt.Ret None
      else rt.Ret None
  end.

(** The body of [for _, cluster := range clusters]: [None] goes on to the
    next cluster, [Some] leaves [sync]. *)
Definition syncCluster (cluster : clusterv1.ManagedCluster) : rt.Prog (option Go.Outcome) :=
  let clusterName := metav1.Name (clusterv1.ObjectMeta cluster) in
  r <- rt.call (rt.LeaseListerGet clusterName leaseName) ;;
  match r with
  | Go.Err e =>
      if Go.IsNotFound e then
        now <- rt.call rt.TimeNow ;;
        r <- rt.call (rt.LeaseCreate clusterName (newLease clusterName now)) ;;
        match r with
        | Go.Err e => rt.Ret (Some (Go.Return (Some e)))
        | Go.Ok _ => rt.Ret None
        end
      else rt.Ret (Some (Go.Return (Some e)))
  | Go.Ok observedLease =>
      let leaseDurationSeconds := clusterv1.LeaseDurationSeconds cluster in
      let leaseDurationSeconds :=
        if (leaseDurationSeconds =? 0)%Z then 60%Z else leaseDurationSeconds in
      let gracePeriod := gracePeriodOf leaseDurationSeconds in
      now <- rt.call rt.TimeNow ;;
      match coordv1.RenewTime observedLease with
      | None => rt.Ret (Some Go.Panic)
      | Some renewTime =>
          if Go.Before now (Go.Add renewTime gracePeriod) then rt.Ret None
          else
            r <- rt.call (rt.AddonListerList clusterName) ;;
            match r with
            | Go.Err e => rt.Ret (Some (Go.Return (Some e)))
            | Go.Ok addons => rt.rangeLoop addons (markUnknown clusterName) (rt.Ret None)
            end
      end
  end.

Record leaseController : Type := {
  (** whether [clusterLister] is set; a call through the nil interface
      panics *)
  clusterLister : bool
}.

(** [NewAddonLeaseController] is handed the cluster informer and leaves
    [clusterLister] unset. *)
Definition NewAddonLeaseController : leaseController := {| clusterLister := false |}.

Definition sync (c : leaseController) : rt.Prog Go.Outcome :=
  if clusterLister c then
    r <- rt.call rt.ClusterListerList ;;
    match r with
    | Go.Err _ => rt.Ret (Go.Return None)
    | Go.Ok clusters => rt.rangeLoop clusters syncCluster (rt.Ret (Go.Return None))
    end
  else rt.Ret Go.Panic.

End hublease.

(* ===================================================================== *)
(** ** Spoke: the add-on lease observer
       (pkg/spoke/controllers/lease/addon_lease_controller.go) *)
(* ===================================================================== *)

Module spokelease.

Definition addonLeaseDurationTimes : Z := 5.
Definition AddonLeaseDurationSeconds : Z := 60.

Record addonLeaseController : Type := { clusterName : string }.

Definition notFoundCondition : metav1.Condition :=
  {| metav1.Type_ := "Degraded";
     metav1.Status := metav1.ConditionTrue;
     metav1.Reason := "AddonLeaseNotFound";
     metav1.Message := "Addon agent is not found.";
     metav1.LastTransitionTime := 0%Z |}.

Definition updatedCondition : metav1.Condition :=
  {| metav1.Type_ := "Degraded";
     metav1.Status := metav1.ConditionFalse;
     metav1.Reason := "ManagedClusterLeaseUpdated";
     metav1.Message := "Addon agent is updating its lease.";
     metav1.LastTransitionTime := 0%Z |}.

Definition stoppedCondition : metav1.Condition :=
  {| metav1.Type_ := "Degraded";
     metav1.Status := metav1.ConditionTrue;
     metav1.Reason := "AddonLeaseUpdateStopped";
     metav1.Message := "Addon agent stopped updating its lease.";
     metav1.LastTransitionTime := 0%Z |}.

Definition gracePeriod : Go.Duration :=
  (addonLeaseDurationTimes * AddonLeaseDurationSeconds * Go.Second)%Z.

(** [for _, lease := range leases]; [None] is the panic of reading through
    a nil [RenewTime]. *)
Fixpoint checkFrom (now : Go.Time) (leases : list coordv1.Lease) : option metav1.Condition :=
  match leases with
  | [] => Some stoppedCondition
  | lease :: rest =>
      match coordv1.RenewTime lease with
      | None => None
      | Some renewTime =>
          if Go.Before now (Go.Add renewTime gracePeriod) then Some updatedCondition
          else checkFrom now rest
      end
  end.

(** Check all addon leases, return degraded=False if one lease is valid *)
Definition checkAddonLeases (leases : list coordv1.Lease) : rt.Prog (option metav1.Condition) :=
  now <- rt.call rt.TimeNow ;;
  rt.Ret (checkFrom now leases).

Section WithParser.
Context `{labels.Parser}.

(** The error of [labels.Parse] is dropped; listing with the nil selector
    it leaves panics ([None]). *)
Definition getLeaseByAddonName (addonName : string)
    : rt.Prog (option (Go.Res (list coordv1.Lease))) :=
  match labels.Parse ("open-cluster-management-addon=" +:+ addonName) with
  | Go.Err _ => rt.Ret None
  | Go.Ok selector =>
      r <- rt.call (rt.LeaseListerList selector) ;;
      rt.Ret (Some r)
  end.

(** The condition the body of the loop settles on. *)
Definition conditionFor (addonName : string) : rt.Prog (option metav1.Condition) :=
  r <- getLeaseByAddonName addonName ;;
  match r with
  | None => rt.Ret None
  | Some (Go.Err _) => rt.Ret (Some notFoundCondition)
  | Some (Go.Ok leases) =>
      if (length leases =? 0)%nat then rt.Ret (Some notFoundCondition)
      else checkAddonLeases leases
  end.

(** The body of [for _, addon := range addons]. *)
Definition syncAddon (c : addonLeaseController) (addon : addonapiv1alpha1.ManagedClusterAddOn)
    : rt.Prog (option Go.Outcome) :=
  let addonName := metav1.Name (addonapiv1alpha1.ObjectMeta addon) in
  cond <- conditionFor addonName ;;
  match cond with
  | None => rt.Ret (Some Go.Panic)
  | Some cond =>
      r <- helpers.UpdateAddonStatus (clusterName c) addonName
             [helpers.UpdateAddonConditionFn cond] ;;
      match r.2 with
      | Some e => rt.Ret (Some (Go.Return (Some e)))
      | None =>
          if r.1.2 then
            _ <- rt.call (rt.Eventf "AddonAvailableConditionUpdated") ;;
            rt.Ret None
          else rt.Ret None
      end
  end.

Definition sync (c : addonLeaseController) : rt.Prog Go.Outcome :=
  r <- rt.call (rt.AddonListerList (clusterName c)) ;;
  match r with
  | Go.Err _ => rt.Ret (Go.Return None)
  | Go.Ok addons => rt.rangeLoop addons (syncAddon c) (rt.Ret (Go.Return None))
  end.

End WithParser.

End spokelease.

(* ===================================================================== *)
(** ** Spoke: the certificate manager
       (pkg/spoke/controllers/clientcertmanager) *)
(* ===================================================================== *)

Module clientcertmanager.

Definition registrationFinalizer : string := "addonregistration.open-cluster-management.io".

Record certificateManagerController : Type := { clusterName : string }.

(** [m[k]] on a [map[string]string]: the zero value when [k] is missing. *)
Definition index (m : gmap string string) (k : string) : string := default "" (m !! k).

(** signer, bootstrapSecret, hubKubeConfigSecretName,
    hubKubeConfigSecretNameSpace *)
Definition readConfigFromConfigMap (addonName : string) (annotation : gmap string string)
    : string * string * string * string :=
  let signer :=
    if decide (index annotation "signer" = "")
    then certificatesv1.KubeAPIServerClientSignerName
    else index annotation "signer" in
  (signer, index annotation "bootstrapSecret", addonName +:+ "-hub-kubeconfig",
   index annotation "installNamespace").

Definition removeAddonFinalizer (c : certificateManagerController)
    (addon : addonapiv1alpha1.ManagedClusterAddOn) : rt.Prog (option Go.error) :=
  let m := addonapiv1alpha1.ObjectMeta addon in
  let copiedFinalizers := finalizers.copyExcept (metav1.Finalizers m) registrationFinalizer in
  if negb (length (metav1.Finalizers m) =? length copiedFinalizers)%nat then
    r <- rt.call (rt.AddonUpdate (clusterName c)
           (addonapiv1alpha1.withObjectMeta addon (metav1.withFinalizers m copiedFinalizers))) ;;
    rt.Ret (rt.errOf r)
  else rt.Ret None.

(** [sync]; building the clients and the certificate manager and starting
    its bootstrap and rotation controllers is the one call
    [StartCertificateManager]. *)
Definition sync (c : certificateManagerController) (addonName : string)
    : rt.Prog (option Go.error) :=
  r <- rt.call (rt.AddonListerGet (clusterName c) addonName) ;;
  match r with
  | Go.Err e => rt.Ret (if Go.IsNotFound e then None else Some e)
  | Go.Ok addon =>
      let m := addonapiv1alpha1.ObjectMeta addon in
      let annotation := metav1.Annotations m in
      if (size annotation =? 0)%nat then rt.Ret None
      else if decide (index annotation "enable_registration" = "false") then rt.Ret None
      else if metav1.DeletionTimestamp_IsZero m
              && negb (finalizers.has (metav1.Finalizers m) registrationFinalizer)
      then
        r <- rt.call (rt.AddonUpdate (clusterName c)
               (addonapiv1alpha1.withObjectMeta addon
                  (metav1.withFinalizers m (metav1.Finalizers m ++ [registrationFinalizer])))) ;;
        rt.Ret (rt.errOf r)
      else if negb (metav1.DeletionTimestamp_IsZero m) then
        _ <- rt.call (rt.StopRotate addonName) ;;
        removeAddonFinalizer c addon
      else
        let '(signer, bootstrapSecret, hubKubeConfigSecretName, hubKubeConfigSecretNameSpace) :=
          readConfigFromConfigMap addonName annotation in
        rt.call (rt.StartCertificateManager addonName signer bootstrapSecret
                   hubKubeConfigSecretName hubKubeConfigSecretNameSpace)
  end.

End clientcertmanager.

(* ===================================================================== *)
(** ** The in-memory API server and informer caches *)
(* ===================================================================== *)

(** The world of the fake clientsets: an object tracker per resource, which
    gets, creates, replaces and deletes by namespace and name, next to the
    informer caches the listers read, which no client call changes. *)
Module Fake.

Record World : Type := {
  (** informer caches *)
  clusterCache : list clusterv1.ManagedCluster;
  addonCache : list addonapiv1alpha1.ManagedClusterAddOn;
  workCache : list workapiv1.ManifestWork;
  leaseCache : list coordv1.Lease;
  configCache : gmap (string * string) runtime.Object;
  (** object trackers *)
  addons : gmap (string * string) addonapiv1alpha1.ManagedClusterAddOn;
  clusterManagementAddOns : gmap string addonapiv1alpha1.ClusterManagementAddOn;
  works : gmap (string * string) workapiv1.ManifestWork;
  leases : gmap (string * string) coordv1.Lease;
  csrs : gmap string certificatesv1.CertificateSigningRequest;
  (** the authorizer behind subject access reviews *)
  authorizer : authorizationv1.SubjectAccessReview -> bool;
  (** the clock: the reading of each successive call *)
  clock : nat -> Go.Time;
  ticks : nat;
  (** what starting a certificate manager returns *)
  startResult : option Go.error
}.

Definition withAddons (w : World)
    (x : gmap (string * string) addonapiv1alpha1.ManagedClusterAddOn) : World :=
  {| clusterCache := clusterCache w; addonCache := addonCache w; workCache := workCache w;
     leaseCache := leaseCache w; configCache := configCache w; addons := x;
     clusterManagementAddOns := clusterManagementAddOns w; works := works w;
     leases := leases w; csrs := csrs w; authorizer := authorizer w;
     clock := clock w; ticks := ticks w; startResult := startResult w |}.

Definition withWorks (w : World) (x : gmap (string * string) workapiv1.ManifestWork) : World :=
  {| clusterCache := clusterCache w; addonCache := addonCache w; workCache := workCache w;
     leaseCache := leaseCache w; configCache := configCache w; addons := addons w;
     clusterManagementAddOns := clusterManagementAddOns w; works := x;
     leases := leases w; csrs := csrs w; authorizer := authorizer w;
     clock := clock w; ticks := ticks w; startResult := startResult w |}.

Definition withLeases (w : World) (x : gmap (string * string) coordv1.Lease) : World :=
  {| clusterCache := clusterCache w; addonCache := addonCache w; workCache := workCache w;
     leaseCache := leaseCache w; configCache := configCache w; addons := addons w;
     clusterManagementAddOns := clusterManagementAddOns w; works := works w;
     leases := x; csrs := csrs w; authorizer := authorizer w;
     clock := clock w; ticks := ticks w; startResult := startResult w |}.

Definition withCsrs (w : World)
    (x : gmap string certificatesv1.CertificateSigningRequest) : World :=
  {| clusterCache := clusterCache w; addonCache := addonCache w; workCache := workCache w;
     leaseCache := leaseCache w; configCache := configCache w; addons := addons w;
     clusterManagementAddOns := clusterManagementAddOns w; works := works w;
     leases := leases w; csrs := x; authorizer := authorizer w;
     clock := clock w; ticks := ticks w; startResult := startResult w |}.

Definition withTicks (w : World) (x : nat) : World :=
  {| clusterCache := clusterCache w; addonCache := addonCache w; workCache := workCache w;
     leaseCache := leaseCache w; configCache := configCache w; addons := addons w;
     clusterManagementAddOns := clusterManagementAddOns w; works := works w;
     leases := leases w; csrs := csrs w; authorizer := authorizer w;
     clock := clock w; ticks := x; startResult := startResult w |}.

Definition get {K A : Type} `{Countable K} (m : gmap K A) (k : K) : Go.Res A :=
  match m !! k with
  | Some a => Go.Ok a
  | None => Go.Err Go.ErrNotFound
  end.

Definition found {A : Type} (o : option A) : Go.Res A :=
  match o with
  | Some a => Go.Ok a
  | None => Go.Err Go.ErrNotFound
  end.

Definition isNamed (ns name : string) (m : metav1.ObjectMeta) : bool :=
  bool_decide (metav1.Namespace m = ns) && bool_decide (metav1.Name m = name).

Definition inNamespace (ns : string) (m : metav1.ObjectMeta) : bool :=
  bool_decide (metav1.Namespace m = ns).

Definition handle : rt.Handler World :=
  fun c w =>
    match c as c0 return rt.Resp c0 * World with
    | rt.ClusterListerGet name =>
        (found (List.find (fun x => bool_decide (metav1.Name (clusterv1.ObjectMeta x) = name))
                  (clusterCache w)), w)
    | rt.ClusterListerList => (Go.Ok (clusterCache w), w)
    | rt.AddonListerGet ns name =>
        (found (List.find (fun x => isNamed ns name (addonapiv1alpha1.ObjectMeta x))
                  (addonCache w)), w)
    | rt.AddonListerList ns =>
        (Go.Ok (List.filter (fun x => inNamespace ns (addonapiv1alpha1.ObjectMeta x))
                  (addonCache w)), w)
    | rt.WorkListerList ns sel =>
        (Go.Ok (List.filter
                  (fun x => inNamespace ns (workapiv1.ObjectMeta x)
                            && labels.Matches sel (metav1.Labels (workapiv1.ObjectMeta x)))
                  (workCache w)), w)
    | rt.LeaseListerGet ns name =>
        (found (List.find (fun x => isNamed ns name (coordv1.ObjectMeta x)) (leaseCache w)), w)
    | rt.LeaseListerList sel =>
        (Go.Ok (List.filter
                  (fun x => labels.Matches sel (metav1.Labels (coordv1.ObjectMeta x)))
                  (leaseCache w)), w)
    | rt.ConfigListerGet ns name => (get (configCache w) (ns, name), w)
    | rt.AddonGet ns name => (get (addons w) (ns, name), w)
    | rt.AddonUpdate ns a | rt.AddonUpdateStatus ns a =>
        let k := (ns, metav1.Name (addonapiv1alpha1.ObjectMeta a)) in
        match addons w !! k with
        | None => (Go.Err Go.ErrNotFound, w)
        | Some _ => (Go.Ok a, withAddons w (<[k := a]> (addons w)))
        end
    | rt.ClusterManagementAddOnGet name => (get (clusterManagementAddOns w) name, w)
    | rt.WorkGet ns name => (get (works w) (ns, name), w)
    | rt.WorkCreate ns x =>
        let k := (ns, metav1.Name (workapiv1.ObjectMeta x)) in
        match works w !! k with
        | Some _ => (Go.Err Go.ErrAlreadyExists, w)
        | None => (Go.Ok x, withWorks w (<[k := x]> (works w)))
        end
    | rt.WorkUpdate ns x =>
        let k := (ns, metav1.Name (workapiv1.ObjectMeta x)) in
        match works w !! k with
        | None => (Go.Err Go.ErrNotFound, w)
        | Some _ => (Go.Ok x, withWorks w (<[k := x]> (works w)))
        end
    | rt.WorkDelete ns name =>
        match works w !! (ns, name) with
        | None => (Some Go.ErrNotFound, w)
        | Some _ => (None, withWorks w (delete (ns, name) (works w)))
        end
    | rt.LeaseCreate ns x =>
        let k := (ns, metav1.Name (coordv1.ObjectMeta x)) in
        match leases w !! k with
        | Some _ => (Go.Err Go.ErrAlreadyExists, w)
        | None => (Go.Ok x, withLeases w (<[k := x]> (leases w)))
        end
    | rt.CSRGet name => (get (csrs w) name, w)
    | rt.CSRUpdateApproval name x =>
        match csrs w !! name with
        | None => (Go.Err Go.ErrNotFound, w)
        | Some _ => (Go.Ok x, withCsrs w (<[name := x]> (csrs w)))
        end
    | rt.SubjectAccessReviewCreate sar =>
        (Go.Ok {| authorizationv1.User := authorizationv1.User sar;
                  authorizationv1.UID := authorizationv1.UID sar;
                  authorizationv1.Groups := authorizationv1.Groups sar;
                  authorizationv1.Extra := authorizationv1.Extra sar;
                  authorizationv1.Attributes := authorizationv1.Attributes sar;
                  authorizationv1.Allowed := authorizer w sar |}, w)
    | rt.TimeNow => (clock w (ticks w), withTicks w (S (ticks w)))
    | rt.Eventf _ => (tt, w)
    | rt.StopRotate _ => (tt, w)
    | rt.StartCertificateManager _ _ _ _ _ => (startResult w, w)
    end.

(** A world with nothing in it and a clock that stands at [now]. *)
Definition empty (now : Go.Time) : World :=
  {| clusterCache := []; addonCache := []; workCache := []; leaseCache := [];
     configCache := ∅; addons := ∅; clusterManagementAddOns := ∅; works := ∅;
     leases := ∅; csrs := ∅; authorizer := fun _ => false;
     clock := fun _ => now; ticks := 0; startResult := None |}.

End Fake.

(* ===================================================================== *)
(** ** Vocabulary of the properties *)
(* ===================================================================== *)

Module spec.

(** [a'] is [a] with nothing but its finalizer list changed. *)
Definition sameButFinalizers (a a' : addonapiv1alpha1.ManagedClusterAddOn) : Prop :=
  let m := addonapiv1alpha1.ObjectMeta a in
  let m' := addonapiv1alpha1.ObjectMeta a' in
  addonapiv1alpha1.Spec a' = addonapiv1alpha1.Spec a ∧
  addonapiv1alpha1.Status a' = addonapiv1alpha1.Status a ∧
  metav1.Name m' = metav1.Name m ∧
  metav1.Namespace m' = metav1.Namespace m ∧
  metav1.ResourceVersion m' = metav1.ResourceVersion m ∧
  metav1.Labels m' = metav1.Labels m ∧
  metav1.Annotations m' = metav1.Annotations m ∧
  metav1.DeletionTimestamp m' = metav1.DeletionTimestamp m ∧
  metav1.OwnerReferences m' = metav1.OwnerReferences m.

(** What removing the finalizer [f] from [a] by the program [p] has to do,
    whatever the API server answers: when [f] is on the list, one update of
    the add-on, in its own namespace, that carries the other finalizers in
    their order and changes nothing else; when it is not, no call at all. *)
Definition removesFinalizer (f : string) (a : addonapiv1alpha1.ManagedClusterAddOn)
    (p : rt.Prog (option Go.error)) : Prop :=
  let m := addonapiv1alpha1.ObjectMeta a in
  ∀ (W : Type) (h : rt.Handler W) (w : W),
    (f ∈ metav1.Finalizers m →
       ∃ a', rt.trace h p w = [rt.AddonUpdate (metav1.Namespace m) a'] ∧
             sameButFinalizers a a' ∧
             metav1.Finalizers (addonapiv1alpha1.ObjectMeta a')
               = filter (λ x, x ≠ f) (metav1.Finalizers m) ∧
             rt.result h p w = rt.errOf (h (rt.AddonUpdate (metav1.Namespace m) a') w).1) ∧
    (f ∉ metav1.Finalizers m →
       rt.trace h p w = [] ∧ rt.final h p w = w ∧ rt.result h p w = None).

(** The conditions of a status hold one of the given type, status and
    reason. *)
Definition hasCondition (s : addonapiv1alpha1.ManagedClusterAddOnStatus)
    (type status reason : string) : Prop :=
  ∃ c, meta.FindStatusCondition (addonapiv1alpha1.Conditions s) type = Some c ∧
       metav1.Status c = status ∧ metav1.Reason c = reason.

(** What the renewal check looks at, apart from the state of the request. *)
Definition renewalShape `{x509.Lib} (signer addonName : string)
    (csr : certificatesv1.CertificateSigningRequest) : Prop :=
  ∃ cluster block cr,
    metav1.Labels (certificatesv1.ObjectMeta csr) !! csrapprove.spokeClusterNameLabel
      = Some cluster ∧
    (certificatesv1.SignerName csr = "" ∨ certificatesv1.SignerName csr = signer) ∧
    x509.Decode (certificatesv1.Request csr) = Some block ∧
    x509.Type_ block = "CERTIFICATE REQUEST" ∧
    x509.ParseCertificateRequest (x509.Bytes block) = Go.Ok cr ∧
    x509.Organization cr = [helpers.AgentGroup cluster addonName] ∧
    String.prefix (helpers.AgentGroup cluster addonName) (x509.CommonName cr) = true ∧
    certificatesv1.Username csr = x509.CommonName cr.

(** The reconcile of the certificate manager issues no write for an add-on
    whose annotations satisfy [P]. *)
Definition certManagerWritesNothing (P : gmap string string → Prop) : Prop :=
  ∀ (W : Type) (h : rt.Handler W) (w w1 : W)
    (c : clientcertmanager.certificateManagerController) (addonName : string)
    (addon : addonapiv1alpha1.ManagedClusterAddOn),
    h (rt.AddonListerGet (clientcertmanager.clusterName c) addonName) w = (Go.Ok addon, w1) →
    P (metav1.Annotations (addonapiv1alpha1.ObjectMeta addon)) →
    rt.writes h (clientcertmanager.sync c addonName) w = [].

(** The reconcile of the certificate manager returns nil for an add-on
    whose annotations satisfy [P], having read the add-on from the lister
    and made no other call. *)
Definition certManagerReturnsAtOnce (P : gmap string string → Prop) : Prop :=
  ∀ (W : Type) (h : rt.Handler W) (w w1 : W)
    (c : clientcertmanager.certificateManagerController) (addonName : string)
    (addon : addonapiv1alpha1.ManagedClusterAddOn),
    h (rt.AddonListerGet (clientcertmanager.clusterName c) addonName) w = (Go.Ok addon, w1) →
    P (metav1.Annotations (addonapiv1alpha1.ObjectMeta addon)) →
    rt.run h (clientcertmanager.sync c addonName) w
    = (None, w1, [rt.AddonListerGet (clientcertmanager.clusterName c) addonName]).

(** The leases the lister returns for the selector of an add-on's label. *)
Definition labelledFor (name : string) (w : Fake.World) : list coordv1.Lease :=
  List.filter
    (λ l, bool_decide
            (metav1.Labels (coordv1.ObjectMeta l) !! "open-cluster-management-addon"
             = Some name))
    (Fake.leaseCache w).






End spec.

(* ===================================================================== *)
(** ** Objects of the repository's tests *)
(* ===================================================================== *)

Module fixture.

Definition TestAddon : string := "testaddon".
Definition TestManagedClusterName : string := "testcluster".

(** [NewAddon] *)
Definition NewAddon : addonapiv1alpha1.ManagedClusterAddOn :=
  {| addonapiv1alpha1.ObjectMeta := metav1.named TestManagedClusterName TestAddon;
     addonapiv1alpha1.Spec := "";
     addonapiv1alpha1.Status :=
       {| addonapiv1alpha1.Conditions := []; addonapiv1alpha1.RelatedObjects := [] |} |}.

(** [NewManagedCluster] *)
Definition NewManagedCluster : clusterv1.ManagedCluster :=
  {| clusterv1.ObjectMeta := metav1.named "" TestManagedClusterName;
     clusterv1.LeaseDurationSeconds := 0 |}.

(** A world with one cluster, one add-on, cached and stored, and the given
    leases in the lease cache, at the instant [now]. *)
Definition world (cluster : clusterv1.ManagedCluster)
    (addon : addonapiv1alpha1.ManagedClusterAddOn) (leases : list coordv1.Lease)
    (now : Go.Time) : Fake.World :=
  {| Fake.clusterCache := [cluster];
     Fake.addonCache := [addon];
     Fake.workCache := [];
     Fake.leaseCache := leases;
     Fake.configCache := ∅;
     Fake.addons :=
       {[ (metav1.Namespace (addonapiv1alpha1.ObjectMeta addon),
           metav1.Name (addonapiv1alpha1.ObjectMeta addon)) := addon ]};
     Fake.clusterManagementAddOns :=
       {[ TestAddon := {| addonapiv1alpha1.cmaName := TestAddon;
                          addonapiv1alpha1.CRDName := "";
                          addonapiv1alpha1.CRName := "" |} ]};
     Fake.works := ∅;
     Fake.leases := ∅;
     Fake.csrs := ∅;
     Fake.authorizer := fun _ => true;
     Fake.clock := fun _ => now;
     Fake.ticks := 0;
     Fake.startResult := None |}.

(** The hub with the test cluster and the test add-on. *)
Definition hub (now : Go.Time) : Fake.World := world NewManagedCluster NewAddon [] now.

(** The test add-on with the given annotations. *)
Definition annotated (annotations : gmap string string) : addonapiv1alpha1.ManagedClusterAddOn :=
  addonapiv1alpha1.withObjectMeta NewAddon
    (metav1.withAnnotations (addonapiv1alpha1.ObjectMeta NewAddon) annotations).

(** An add-on whose bootstrap kubeconfig is the given bytes. *)
Definition agentWithKubeConfig (data : Go.bytes) : addoninterface.AgentAddonWithRegistration :=
  {| addoninterface.Agent := {| addoninterface.AgentManifests := fun _ _ => ([], None) |};
     addoninterface.AgentBootstrapKubeConfig := fun _ => Go.Ok data |}.

(** Objects encode to their content. *)
Definition rawCodec : runtime.Codec :=
  {| runtime.Encode := fun o => match o with runtime.Obj _ content => Go.Ok content end |}.

(** The agent of the example add-on: one config map. *)
Definition helloWorldAgent : addoninterface.AgentAddon :=
  {| addoninterface.AgentManifests := fun _ _ =>
       ([runtime.Obj "ConfigMap" [Byte.x7b; Byte.x7d]], None) |}.

Definition deployController : deploy.addonDeployController :=
  {| deploy.agentAddon := helloWorldAgent;
     deploy.addonName := TestAddon;
     deploy.configLister := false |}.

(** The test add-on with the given finalizers and deletion timestamp. *)
Definition finalized (fs : list string) (deletion : option Go.Time)
    : addonapiv1alpha1.ManagedClusterAddOn :=
  {| addonapiv1alpha1.ObjectMeta :=
       {| metav1.Name := TestAddon; metav1.Namespace := TestManagedClusterName;
          metav1.ResourceVersion := ""; metav1.Labels := ∅; metav1.Annotations := ∅;
          metav1.Finalizers := fs; metav1.DeletionTimestamp := deletion;
          metav1.OwnerReferences := [] |};
     addonapiv1alpha1.Spec := "";
     addonapiv1alpha1.Status :=
       {| addonapiv1alpha1.Conditions := []; addonapiv1alpha1.RelatedObjects := [] |} |}.

(** [NewManifestWork], labelled for the test add-on. *)
Definition NewManifestWork (name : string) (deletion : option Go.Time)
    : workapiv1.ManifestWork :=
  {| workapiv1.ObjectMeta :=
       {| metav1.Name := name; metav1.Namespace := TestManagedClusterName;
          metav1.ResourceVersion := "1";
          metav1.Labels := {[ deploy.AddonWorkLabel := TestAddon ]};
          metav1.Annotations := ∅; metav1.Finalizers := [];
          metav1.DeletionTimestamp := deletion; metav1.OwnerReferences := [] |};
     workapiv1.Manifests := [] |}.

(** The hub while the test add-on is torn down: the add-on is being deleted,
    one of its works is still there and another is already being deleted. *)
Definition teardown : Fake.World :=
  {| Fake.clusterCache := [NewManagedCluster];
     Fake.addonCache := [finalized [deploy.addonFinalizer] (Some 5%Z)];
     Fake.workCache := [NewManifestWork "addon-testaddon-deploy" None;
                        NewManifestWork "addon-testaddon-other" (Some 7%Z)];
     Fake.leaseCache := [];
     Fake.configCache := ∅;
     Fake.addons :=
       {[ (TestManagedClusterName, TestAddon) := finalized [deploy.addonFinalizer] (Some 5%Z) ]};
     Fake.clusterManagementAddOns := ∅;
     Fake.works :=
       {[ (TestManagedClusterName, "addon-testaddon-deploy")
            := NewManifestWork "addon-testaddon-deploy" None ]};
     Fake.leases := ∅;
     Fake.csrs := ∅;
     Fake.authorizer := fun _ => true;
     Fake.clock := fun _ => 1000%Z;
     Fake.ticks := 0;
     Fake.startResult := None |}.

(** A stand-in for the PEM and X.509 decoders: every request decodes to a
    certificate request whose subject is the test agent of the test add-on
    on the test cluster. *)
Definition agentRequests : x509.Lib :=
  {| x509.Decode := fun req =>
       Some {| x509.Type_ := "CERTIFICATE REQUEST"; x509.Bytes := req |};
     x509.ParseCertificateRequest := fun _ =>
       Go.Ok {| x509.Organization := [helpers.AgentGroup TestManagedClusterName TestAddon];
                x509.CommonName :=
                  helpers.AgentUser TestManagedClusterName "agent1" TestAddon |} |}.

Definition csrName : string := "addon-testaddon-testcluster-x7k2p".

(** [NewCSR] for the renewal request of the test agent, with the given
    conditions. *)
Definition NewCSR (conditions : list certificatesv1.CertificateSigningRequestCondition)
    : certificatesv1.CertificateSigningRequest :=
  {| certificatesv1.ObjectMeta :=
       {| metav1.Name := csrName; metav1.Namespace := ""; metav1.ResourceVersion := "";
          metav1.Labels := {[ csrapprove.spokeClusterNameLabel := TestManagedClusterName ]};
          metav1.Annotations := ∅; metav1.Finalizers := [];
          metav1.DeletionTimestamp := None; metav1.OwnerReferences := [] |};
     certificatesv1.Request := [];
     certificatesv1.SignerName := certificatesv1.KubeAPIServerClientSignerName;
     certificatesv1.Username := helpers.AgentUser TestManagedClusterName "agent1" TestAddon;
     certificatesv1.UID := "";
     certificatesv1.Groups := [];
     certificatesv1.Extra := ∅;
     certificatesv1.Conditions := conditions |}.

Definition deniedCondition : certificatesv1.CertificateSigningRequestCondition :=
  {| certificatesv1.Type_ := certificatesv1.CertificateDenied;
     certificatesv1.Status := ""; certificatesv1.Reason := "";
     certificatesv1.Message := "" |}.

(** [NewDeniedCSR] *)
Definition NewDeniedCSR : certificatesv1.CertificateSigningRequest := NewCSR [deniedCondition].

(** A denied request that carries no cluster label. *)
Definition NewUnlabelledDeniedCSR : certificatesv1.CertificateSigningRequest :=
  {| certificatesv1.ObjectMeta := metav1.named "" csrName;
     certificatesv1.Request := [];
     certificatesv1.SignerName := certificatesv1.KubeAPIServerClientSignerName;
     certificatesv1.Username := "someone";
     certificatesv1.UID := "";
     certificatesv1.Groups := [];
     certificatesv1.Extra := ∅;
     certificatesv1.Conditions := [deniedCondition] |}.

(** The hub holding one certificate signing request. *)
Definition hubWithCSR (csr : certificatesv1.CertificateSigningRequest) : Fake.World :=
  Fake.withCsrs (hub 1000%Z) {[ csrName := csr ]}.

(** The approve check of the example add-on: [return true]. *)
Definition approveAll : addoninterface.CSRApproveCheckFunc := fun _ => true.

(** The selector parser on selectors of the form [key=value]. *)
Fixpoint splitAtEquals (s key : string) : option (string * string) :=
  match s with
  | EmptyString => None
  | String a rest =>
      if (Ascii.nat_of_ascii a =? 61)%nat then Some (key, rest)
      else splitAtEquals rest (key +:+ String a EmptyString)
  end.

Definition equalityParser : labels.Parser :=
  {| labels.Parse := fun s =>
       match splitAtEquals s "" with
       | Some (k, v) =>
           if labels.IsValidLabelValue v
           then Go.Ok [ {| labels.key := k; labels.value := v |} ]
           else Go.Err (Go.Errorf "invalid label value")
       | None => Go.Err (Go.Errorf "unsupported selector")
       end |}.

(** [NewAddonLease] *)
Definition NewAddonLease (renewTime : Go.Time) (namespace : string) : coordv1.Lease :=
  {| coordv1.ObjectMeta :=
       {| metav1.Name := "open-cluster-management-addon-" +:+ TestAddon;
          metav1.Namespace := namespace; metav1.ResourceVersion := "";
          metav1.Labels := {[ "open-cluster-management-addon" := TestAddon ]};
          metav1.Annotations := ∅; metav1.Finalizers := [];
          metav1.DeletionTimestamp := None; metav1.OwnerReferences := [] |};
     coordv1.HolderIdentity := None;
     coordv1.RenewTime := Some renewTime |}.

(** [NewAddonManagerLease] *)
Definition NewAddonManagerLease (renewTime : Go.Time) : coordv1.Lease :=
  {| coordv1.ObjectMeta := metav1.named TestManagedClusterName "addon-lease";
     coordv1.HolderIdentity := None;
     coordv1.RenewTime := Some renewTime |}.


(** The status updates one pass of the spoke lease observer issues for the
    test add-on, with the given leases in the lease cache, at [now]. *)
Definition spokePass (leases : list coordv1.Lease) (now : Go.Time) : list rt.Cmd :=
  List.filter
    (fun c => match c with rt.AddonUpdateStatus _ _ => true | _ => false end)
    (rt.trace Fake.handle
       (@spokelease.sync equalityParser {| spokelease.clusterName := TestManagedClusterName |})
       (world NewManagedCluster NewAddon leases now)).

(** The calls of one pass of the hub lease controller, built with all its
    listers as the test builds it, on the lease client and on the add-on
    client, with the given leases in the lease cache. *)
Definition hubPass (leases : list coordv1.Lease) (now : Go.Time) : list rt.Cmd :=
  List.filter
    (fun c => match c with
              | rt.LeaseCreate _ _ | rt.AddonGet _ _ | rt.AddonUpdateStatus _ _ => true
              | _ => false
              end)
    (rt.trace Fake.handle (hublease.sync {| hublease.clusterLister := true |})
       (world NewManagedCluster NewAddon leases now)).

(** The update of the test add-on that sets the one condition [c] at [now]. *)
Definition statusUpdate (c : metav1.Condition) (now : Go.Time) : rt.Cmd :=
  rt.AddonUpdateStatus TestManagedClusterName
    (addonapiv1alpha1.withStatus NewAddon
       {| addonapiv1alpha1.Conditions := [meta.withTransition c (metav1.Status c) now];
          addonapiv1alpha1.RelatedObjects := [] |}).

(** Five minutes, the [now.Add(-5*time.Minute)] of the tests. *)
Definition fiveMinutes : Go.Duration := (5 * 60 * Go.Second)%Z.

End fixture.

(* ===================================================================== *)
(** ** Running programs *)
(* ===================================================================== *)

Section Running.
Context {W : Type} (h : rt.Handler W).

Lemma run_bind {A B : Type} (p : rt.Prog A) (f : A → rt.Prog B) (w : W) :
  rt.run h (rt.bind p f) w =
    let '(a, w1, t1) := rt.run h p w in
    let '(b, w2, t2) := rt.run h (f a) w1 in
    (b, w2, t1 ++ t2).
Proof.
  revert w. induction p as [a | c k IH]; intros w; simpl.
  - destruct (rt.run h (f a) w) as [[b w2] t2]. reflexivity.
  - destruct (h c w) as [r w1]. rewrite IH.
    destruct (rt.run h (k r) w1) as [[a w2] t1].
    destruct (rt.run h (f a) w2) as [[b w3] t2]. reflexivity.
Qed.

Lemma run_call (c : rt.Cmd) (w : W) :
  rt.run h (rt.call c) w = ((h c w).1, (h c w).2, [c]).
Proof. unfold rt.call. simpl. destruct (h c w). reflexivity. Qed.

Lemma run_ret {A : Type} (a : A) (w : W) : rt.run h (rt.Ret a) w = (a, w, []).
Proof. reflexivity. Qed.

End Running.

(* ===================================================================== *)
(** ** Finalizer lists *)
(* ===================================================================== *)

Lemma copyExcept_from (fs : list string) (f : string) (copied : list string) :
  fold_left (fun copied x => if decide (x = f) then copied else copied ++ [x]) fs copied
  = copied ++ filter (λ x, x ≠ f) fs.
Proof.
  revert copied. induction fs as [|x fs IH]; intros copied; simpl.
  - by rewrite app_nil_r.
  - rewrite IH. destruct (decide (x = f)) as [->|Hne].
    + rewrite filter_cons_False; [done | by intros ?].
    + rewrite filter_cons_True by done. by rewrite <- app_assoc.
Qed.

Lemma copyExcept_filter (fs : list string) (f : string) :
  finalizers.copyExcept fs f = filter (λ x, x ≠ f) fs.
Proof. unfold finalizers.copyExcept. by rewrite copyExcept_from. Qed.

Lemma filter_ne_length (fs : list string) (f : string) :
  length (filter (λ x, x ≠ f) fs) = length fs ↔ f ∉ fs.
Proof.
  induction fs as [|x fs IH]; simpl.
  - split; [intros _; apply not_elem_of_nil | done].
  - destruct (decide (x = f)) as [->|Hne].
    + rewrite filter_cons_False by (by intros ?).
      pose proof (length_filter (λ x, x ≠ f) fs). split.
      * intros Hl. lia.
      * intros Hn. exfalso. apply Hn. left.
    + rewrite filter_cons_True by done. simpl. rewrite not_elem_of_cons. split.
      * intros Hl. split; [congruence | apply IH; lia].
      * intros [_ Hn]. f_equal. by apply IH.
Qed.

Lemma has_elem_of (fs : list string) (f : string) :
  finalizers.has fs f = true ↔ f ∈ fs.
Proof.
  induction fs as [|x fs IH]; simpl.
  - split; [done | by intros ?%elem_of_nil].
  - destruct (decide (x = f)) as [->|Hne].
    + split; [intros _; left | done].
    + rewrite IH, elem_of_cons. split; [by right | by intros [?|?]].
Qed.

(** What the three copies of the removal loop share. *)
Lemma removal_shape (f ns : string) (a : addonapiv1alpha1.ManagedClusterAddOn)
    (W : Type) (h : rt.Handler W) (w : W) :
  let m := addonapiv1alpha1.ObjectMeta a in
  let copied := finalizers.copyExcept (metav1.Finalizers m) f in
  let a' := addonapiv1alpha1.withObjectMeta a (metav1.withFinalizers m copied) in
  let p :=
    if negb (length (metav1.Finalizers m) =? length copied)%nat then
      r <- rt.call (rt.AddonUpdate ns a') ;; rt.Ret (rt.errOf r)
    else rt.Ret None in
  (f ∈ metav1.Finalizers m →
     rt.run h p w = (rt.errOf (h (rt.AddonUpdate ns a') w).1,
                     (h (rt.AddonUpdate ns a') w).2, [rt.AddonUpdate ns a'])) ∧
  (f ∉ metav1.Finalizers m → rt.run h p w = (None, w, [])).
Proof.
  intros m copied a' p. subst p copied.
  rewrite copyExcept_filter in *.
  pose proof (filter_ne_length (metav1.Finalizers m) f) as Hlen.
  destruct (Nat.eqb_spec (length (metav1.Finalizers m))
              (length (filter (λ x, x ≠ f) (metav1.Finalizers m)))) as [He|Hne]; simpl.
  - split; [|done]. intros Hin. exfalso. symmetry in He. by apply Hlen in He.
  - split.
    + intros _. destruct (h (rt.AddonUpdate ns a') w) as [r w1]. reflexivity.
    + intros Hn. exfalso. apply Hne. symmetry. by apply Hlen.
Qed.

Lemma removal_removes (f ns : string) (a : addonapiv1alpha1.ManagedClusterAddOn)
    (p : rt.Prog (option Go.error)) :
  ns = metav1.Namespace (addonapiv1alpha1.ObjectMeta a) →
  p = (let m := addonapiv1alpha1.ObjectMeta a in
       let copied := finalizers.copyExcept (metav1.Finalizers m) f in
       if negb (length (metav1.Finalizers m) =? length copied)%nat then
         r <- rt.call (rt.AddonUpdate ns
                (addonapiv1alpha1.withObjectMeta a (metav1.withFinalizers m copied))) ;;
         rt.Ret (rt.errOf r)
       else rt.Ret None) →
  spec.removesFinalizer f a p.
Proof.
  intros -> ->. unfold spec.removesFinalizer. intros W h w.
  set (m := addonapiv1alpha1.ObjectMeta a).
  destruct (removal_shape f (metav1.Namespace m) a W h w) as [Hin Hout].
  fold m in Hin, Hout. split.
  - intros Hf. specialize (Hin Hf).
    eexists. unfold rt.trace, rt.result. rewrite Hin. simpl.
    split; [reflexivity|]. split; [by repeat split|].
    split; [apply copyExcept_filter | reflexivity].
  - intros Hf. specialize (Hout Hf).
    unfold rt.trace, rt.final, rt.result. by rewrite Hout.
Qed.

(** C9.  The finalizer removal of the deploy reconciler and that of the
    registration reconciler each remove every occurrence of their own
    finalizer from the add-on's list and nothing else: the other finalizers
    stay, in their order, every other field of the add-on is unchanged, and
    the update is issued exactly when the finalizer was on the list (no
    call at all otherwise). *)
Theorem C9_finalizer_removal (c : deploy.addonDeployController)
    (a : addonapiv1alpha1.ManagedClusterAddOn) :
  spec.removesFinalizer deploy.addonFinalizer a (deploy.removeAddonFinalizer c a) ∧
  spec.removesFinalizer registrationdeploy.registrationFinalizer a
    (registrationdeploy.removeRegistrationFinalizer a).
Proof.
  split; eapply removal_removes; reflexivity.
Qed.

Lemma C9_finalizer_removal_witness :
  let a := fixture.finalized ["a.example/keep"; deploy.addonFinalizer; "b.example/keep"] (Some 5%Z) in
  let w := fixture.world fixture.NewManagedCluster a [] 1000%Z in
  deploy.addonFinalizer ∈ metav1.Finalizers (addonapiv1alpha1.ObjectMeta a) ∧
  ∃ a', rt.trace Fake.handle (deploy.removeAddonFinalizer fixture.deployController a) w
          = [rt.AddonUpdate "testcluster" a'] ∧
        metav1.Finalizers (addonapiv1alpha1.ObjectMeta a')
          = ["a.example/keep"; "b.example/keep"].
Proof.
  intros a w.
  assert (Hin : deploy.addonFinalizer ∈ metav1.Finalizers (addonapiv1alpha1.ObjectMeta a))
    by (right; left).
  split; [exact Hin|].
  destruct (C9_finalizer_removal fixture.deployController a) as [Hdeploy _].
  destruct (Hdeploy Fake.World Fake.handle w) as [Hpresent _].
  destruct (Hpresent Hin) as (a' & Htrace & _ & Hfs & _).
  exists a'. split; [exact Htrace|]. rewrite Hfs. reflexivity.
Defined.

(* ===================================================================== *)
(** ** The status-update helper *)
(* ===================================================================== *)

Section UpdateAddonStatus.
Context {W : Type} (h : rt.Handler W).

Lemma UpdateAddonStatus_unfold (ns name : string) (fns : list helpers.UpdateAddonStatusFunc) :
  helpers.UpdateAddonStatus ns name fns
  = helpers.UpdateAddonStatusFrom retry.DefaultBackoffSteps None ns name fns.
Proof. reflexivity. Qed.

(** One run of the closure, for each way it can go. *)
Lemma updateAttempt_fetch_error (ns name : string) fns cap (w w1 : W) (e : Go.error) :
  h (rt.AddonGet ns name) w = (Go.Err e, w1) →
  rt.run h (helpers.updateAttempt ns name fns cap) w = ((cap, Some e), w1, [rt.AddonGet ns name]).
Proof.
  intros Hget. unfold helpers.updateAttempt. rewrite run_bind, run_call, Hget. reflexivity.
Qed.

Lemma updateAttempt_equal (ns name : string) fns cap (w w1 w2 : W) addon tr :
  h (rt.AddonGet ns name) w = (Go.Ok addon, w1) →
  rt.run h (helpers.applyUpdates fns (addonapiv1alpha1.Status addon)) w1
    = (Go.Ok (addonapiv1alpha1.Status addon), w2, tr) →
  rt.run h (helpers.updateAttempt ns name fns cap) w
    = (((Some (addonapiv1alpha1.Status addon), cap.2), None), w2, rt.AddonGet ns name :: tr).
Proof.
  intros Hget Hupd. unfold helpers.updateAttempt.
  rewrite run_bind, run_call, Hget. simpl.
  rewrite run_bind, Hupd. simpl.
  destruct (decide _) as [_|Hne]; [|done]. simpl. by rewrite app_nil_r.
Qed.

Lemma updateAttempt_write (ns name : string) fns cap (w w1 w2 : W) addon newStatus tr :
  h (rt.AddonGet ns name) w = (Go.Ok addon, w1) →
  rt.run h (helpers.applyUpdates fns (addonapiv1alpha1.Status addon)) w1
    = (Go.Ok newStatus, w2, tr) →
  newStatus ≠ addonapiv1alpha1.Status addon →
  let write := rt.AddonUpdateStatus ns (addonapiv1alpha1.withStatus addon newStatus) in
  rt.run h (helpers.updateAttempt ns name fns cap) w
    = (match (h write w2).1 with
       | Go.Ok stored => ((Some (addonapiv1alpha1.Status stored), true), None)
       | Go.Err e => (cap, Some e)
       end, (h write w2).2, rt.AddonGet ns name :: tr ++ [write]).
Proof.
  intros Hget Hupd Hne write. unfold helpers.updateAttempt.
  rewrite run_bind, run_call, Hget. simpl.
  rewrite run_bind, Hupd. simpl.
  destruct (decide _) as [Heq|_]; [by symmetry in Heq|].
  simpl. fold write.
  destruct (h write w2) as [[stored|e] w3]; simpl; reflexivity.
Qed.

Lemma OnError_S {S : Type} (n : nat) (retriable : Go.error → bool)
    (fn : S → rt.Prog (S * option Go.error)) (s : S) (lastErr : option Go.error) :
  retry.OnError (Datatypes.S n) retriable fn s lastErr
  = (r <- fn s ;;
     match r.2 with
     | None => rt.Ret (r.1, None)
     | Some e =>
         if retriable e then retry.OnError n retriable fn r.1 (Some e)
         else rt.Ret (r.1, Some e)
     end).
Proof. reflexivity. Qed.

End UpdateAddonStatus.

(** C10.  [UpdateAddonStatus] fetches the add-on and applies the update
    functions to a copy of its status.  When the result equals the fetched
    status, nothing is written and the helper returns that status with
    [updated] false.  Otherwise the add-on is written with the new status
    and nothing else changed; when the write succeeds the helper returns
    the status of the stored object with [updated] true; when it ends in a
    conflict the closure runs again, as long as steps are left (four in
    all), and any other error is returned.  When the steps run out the
    helper returns the last conflict. *)
Theorem C10_UpdateAddonStatus {W : Type} (h : rt.Handler W) (w w1 w2 : W)
    (ns name : string) (fns : list helpers.UpdateAddonStatusFunc)
    (n : nat) (lastErr : option Go.error)
    (addon : addonapiv1alpha1.ManagedClusterAddOn)
    (newStatus : addonapiv1alpha1.ManagedClusterAddOnStatus) (tr : list rt.Cmd) :
  h (rt.AddonGet ns name) w = (Go.Ok addon, w1) →
  rt.run h (helpers.applyUpdates fns (addonapiv1alpha1.Status addon)) w1
    = (Go.Ok newStatus, w2, tr) →
  let p := helpers.UpdateAddonStatusFrom (S n) lastErr ns name fns in
  let write := rt.AddonUpdateStatus ns (addonapiv1alpha1.withStatus addon newStatus) in
  helpers.UpdateAddonStatus ns name fns = helpers.UpdateAddonStatusFrom 4 None ns name fns ∧
  (newStatus = addonapiv1alpha1.Status addon →
     rt.run h p w = ((Some newStatus, false, None), w2, rt.AddonGet ns name :: tr)) ∧
  (newStatus ≠ addonapiv1alpha1.Status addon →
     match h write w2 with
     | (Go.Ok stored, w3) =>
         rt.run h p w = ((Some (addonapiv1alpha1.Status stored), true, None), w3,
                         rt.AddonGet ns name :: tr ++ [write])
     | (Go.Err e, w3) =>
         if Go.IsConflict e then
           rt.run h p w =
             (let '(r, w4, tr') :=
                rt.run h (helpers.UpdateAddonStatusFrom n (Some e) ns name fns) w3 in
              (r, w4, (rt.AddonGet ns name :: tr ++ [write]) ++ tr'))
         else
           rt.run h p w = ((None, false, Some e), w3, rt.AddonGet ns name :: tr ++ [write])
     end) ∧
  (∀ w0, rt.run h (helpers.UpdateAddonStatusFrom 0 lastErr ns name fns) w0
         = ((None, false, lastErr), w0, [])).
Proof.
  intros Hget Hupd p write. split; [reflexivity|]. split; [|split].
  - intros ->. subst p. unfold helpers.UpdateAddonStatusFrom.
    rewrite run_bind, OnError_S, run_bind.
    rewrite (updateAttempt_equal h ns name fns _ w w1 w2 addon tr Hget Hupd).
    simpl. by rewrite !app_nil_r.
  - intros Hne. subst p. unfold helpers.UpdateAddonStatusFrom.
    rewrite run_bind, OnError_S, run_bind.
    rewrite (updateAttempt_write h ns name fns _ w w1 w2 addon newStatus tr Hget Hupd Hne).
    fold write. destruct (h write w2) as [[stored|e] w3]; simpl.
    + by rewrite !app_nil_r.
    + destruct (Go.IsConflict e); simpl.
      * rewrite run_bind.
        destruct (rt.run h (retry.OnError n Go.IsConflict _ _ _) w3) as [[r w4] tr'].
        simpl. by rewrite !app_nil_r.
      * by rewrite !app_nil_r.
  - intros w0. reflexivity.
Qed.

Lemma C10_UpdateAddonStatus_witness :
  let w := fixture.hub 1000%Z in
  let fns := [helpers.UpdateAddonConditionFn hublease.unknownCondition] in
  let newStatus :=
    {| addonapiv1alpha1.Conditions :=
         [meta.withTransition hublease.unknownCondition metav1.ConditionUnknown 1000%Z];
       addonapiv1alpha1.RelatedObjects := [] |} in
  Fake.handle (rt.AddonGet "testcluster" "testaddon") w = (Go.Ok fixture.NewAddon, w) ∧
  rt.run Fake.handle (helpers.applyUpdates fns (addonapiv1alpha1.Status fixture.NewAddon)) w
    = (Go.Ok newStatus, Fake.withTicks w 1, [rt.TimeNow]) ∧
  rt.result Fake.handle (helpers.UpdateAddonStatus "testcluster" "testaddon" fns) w
    = (Some newStatus, true, None).
Proof.
  intros w fns newStatus.
  assert (H1 : Fake.handle (rt.AddonGet "testcluster" "testaddon") w
               = (Go.Ok fixture.NewAddon, w)) by reflexivity.
  assert (H2 : rt.run Fake.handle
                 (helpers.applyUpdates fns (addonapiv1alpha1.Status fixture.NewAddon)) w
               = (Go.Ok newStatus, Fake.withTicks w 1, [rt.TimeNow])) by reflexivity.
  split; [exact H1|]. split; [exact H2|].
  destruct (C10_UpdateAddonStatus Fake.handle w w (Fake.withTicks w 1)
              "testcluster" "testaddon" fns 3 None fixture.NewAddon newStatus
              [rt.TimeNow] H1 H2) as (Hdef & _ & Hwrite & _).
  unfold rt.result. rewrite Hdef.
  assert (Hne : newStatus ≠ addonapiv1alpha1.Status fixture.NewAddon) by discriminate.
  specialize (Hwrite Hne).
  remember (rt.run Fake.handle
              (helpers.UpdateAddonStatusFrom 4 None "testcluster" "testaddon" fns) w) as r.
  vm_compute in Hwrite. rewrite Hwrite. reflexivity.
Defined.

(* ===================================================================== *)
(** ** The CSR approver *)
(* ===================================================================== *)

Section CSRApprover.
Context `{x509.Lib}.

Lemma approvedIn_terminal (cs : list certificatesv1.CertificateSigningRequestCondition)
    (approved : bool) :
  csrapprove.approvedIn cs approved = true →
  approved = true ∨ csrapprove.terminalIn cs = true.
Proof.
  revert approved. induction cs as [|c cs IH]; intros approved; simpl.
  - by left.
  - repeat case_decide; try done; try (by right).
    intros [?|?]%IH; [by left | by right].
Qed.

(** A request [isCSRApproved] accepts is in a terminal state. *)
Lemma isCSRApproved_terminal (csr : certificatesv1.CertificateSigningRequest) :
  csrapprove.isCSRApproved csr = true → csrapprove.IsCSRInTerminalState csr = true.
Proof.
  intros [?|?]%approvedIn_terminal; [done | assumption].
Qed.

(** The reconcile of a request that is approved and not denied reads the
    request and does nothing else. *)
Lemma sync_approved_reads_only {W : Type} (h : rt.Handler W) (w w1 : W)
    (c : csrapprove.csrApprovingController) (name : string)
    (csr : certificatesv1.CertificateSigningRequest) :
  h (rt.CSRGet name) w = (Go.Ok csr, w1) →
  csrapprove.isCSRApproved csr = true →
  rt.run h (csrapprove.sync c name) w = (None, w1, [rt.CSRGet name]).
Proof.
  intros Hget Happ. unfold csrapprove.sync.
  rewrite run_bind, run_call, Hget. simpl. by rewrite Happ.
Qed.

Lemma runChecks_all (checks : list addoninterface.CSRApproveCheckFunc)
    (csr : certificatesv1.CertificateSigningRequest) (approved : bool) :
  csrapprove.runChecks checks csr approved = true ↔
  (checks = [] ∧ approved = true) ∨ (checks ≠ [] ∧ Forall (λ f, f csr = true) checks).
Proof.
  revert approved. induction checks as [|f checks IH]; intros approved; simpl.
  - split; [intros ->; by left | intros [[_ ->]|[? _]]; done].
  - destruct (f csr) eqn:Hf.
    + rewrite IH. split.
      * intros [[-> _]|[_ Hall]]; right; (split; [done|]); by repeat constructor.
      * intros [[? _]|[_ Hall]]; [done|]. inversion Hall; subst.
        destruct checks; [by left | by right].
    + split; [done|]. intros [[? _]|[_ Hall]]; [done|].
      inversion Hall; subst. congruence.
Qed.

Lemma length_zero_empty (s : string) : (String.length s =? 0)%nat = true ↔ s = "".
Proof. destruct s; simpl; split; done. Qed.

Lemma isSpokeClusterClientCertRenewal_shape (signer addonName : string)
    (csr : certificatesv1.CertificateSigningRequest) :
  csrapprove.isSpokeClusterClientCertRenewal signer addonName csr = true ↔
  spec.renewalShape signer addonName csr.
Proof.
  unfold csrapprove.isSpokeClusterClientCertRenewal, spec.renewalShape.
  destruct (metav1.Labels _ !! _) as [cluster|] eqn:Hl; [|split; [done | by intros (?&?&?&?&_)]].
  destruct (String.length (certificatesv1.SignerName csr) =? 0)%nat eqn:Hlen; simpl.
  - apply length_zero_empty in Hlen.
    destruct (x509.Decode _) as [block|] eqn:Hd;
      [|split; [done | by intros (?&?&?&_&_&?&_)]].
    case_bool_decide as Ht; simpl; [|split; [done | intros (?&?&?&_&_&?&?&_); congruence]].
    destruct (x509.ParseCertificateRequest _) as [cr|e] eqn:Hp;
      [|split; [done | intros (?&?&?&_&_&?&_&?&_); congruence]].
    destruct (x509.Organization cr) as [|o [|o' os]] eqn:Ho;
      [split; [done | intros (?&?&?&?&_&?&_&?&?&_); congruence] | |
       split; [done | intros (?&?&?&?&_&?&_&?&?&_); congruence]].
    case_bool_decide as Hg; simpl;
      [|split; [done | intros (?&?&?&?&_&?&_&?&?&_); congruence]].
    destruct (String.prefix o (x509.CommonName cr)) eqn:Hpre; simpl;
      [|split; [done | intros (?&?&?&?&_&?&_&?&?&?&_); congruence]].
    rewrite bool_decide_eq_true. split.
    + intros Hu. exists cluster, block, cr. subst o. by repeat split; try left.
    + intros (?&?&?&?&_&?&_&?&_&_&?). congruence.
  - assert (certificatesv1.SignerName csr ≠ "") as Hne.
    { intros He. apply length_zero_empty in He. congruence. }
    case_bool_decide as Hs; simpl;
      [|split; [done | intros (?&?&?&_&[?|?]&_); done]].
    destruct (x509.Decode _) as [block|] eqn:Hd;
      [|split; [done | by intros (?&?&?&_&_&?&_)]].
    case_bool_decide as Ht; simpl; [|split; [done | intros (?&?&?&_&_&?&?&_); congruence]].
    destruct (x509.ParseCertificateRequest _) as [cr|e] eqn:Hp;
      [|split; [done | intros (?&?&?&_&_&?&_&?&_); congruence]].
    destruct (x509.Organization cr) as [|o [|o' os]] eqn:Ho;
      [split; [done | intros (?&?&?&?&_&?&_&?&?&_); congruence] | |
       split; [done | intros (?&?&?&?&_&?&_&?&?&_); congruence]].
    case_bool_decide as Hg; simpl;
      [|split; [done | intros (?&?&?&?&_&?&_&?&?&_); congruence]].
    destruct (String.prefix o (x509.CommonName cr)) eqn:Hpre; simpl;
      [|split; [done | intros (?&?&?&?&_&?&_&?&?&?&_); congruence]].
    rewrite bool_decide_eq_true. split.
    + intros Hu. exists cluster, block, cr. subst o. by repeat split; try right.
    + intros (?&?&?&?&_&?&_&?&_&_&?). congruence.
Qed.

End CSRApprover.

(** C1 (as the code has it).  A request that carries a Denied condition is
    in a terminal state, yet its reconcile does not stop at it: with the
    approve check of the example add-on, which accepts every request, the
    denied request gets an Approved condition appended and committed; and
    with no approve check at all, the denied renewal request of an agent
    passes the renewal chain and, once authorized, is approved as well. *)
Theorem C1_denied_csr_is_approved :
  csrapprove.IsCSRInTerminalState fixture.NewUnlabelledDeniedCSR = true ∧
  (∀ L : x509.Lib,
     rt.trace Fake.handle
       (csrapprove.sync
          (csrapprove.NewCSRApprovingController
             certificatesv1.KubeAPIServerClientSignerName fixture.TestAddon
             [fixture.approveAll])
          fixture.csrName)
       (fixture.hubWithCSR fixture.NewUnlabelledDeniedCSR)
     = [rt.CSRGet fixture.csrName;
        rt.CSRUpdateApproval fixture.csrName
          (certificatesv1.withConditions fixture.NewUnlabelledDeniedCSR
             [fixture.deniedCondition; csrapprove.approvedCondition]);
        rt.Eventf "AddonCSRAutoApproved"]) ∧
  csrapprove.IsCSRInTerminalState fixture.NewDeniedCSR = true ∧
  Fake.csrs
    (rt.final Fake.handle
       (csrapprove.sync
          (@csrapprove.NewCSRApprovingController fixture.agentRequests
             certificatesv1.KubeAPIServerClientSignerName fixture.TestAddon [])
          fixture.csrName)
       (fixture.hubWithCSR fixture.NewDeniedCSR)) !! fixture.csrName
  = Some (fixture.NewCSR [fixture.deniedCondition; csrapprove.approvedCondition]).
Proof.
  split; [reflexivity|]. split; [|split; [reflexivity|]].
  - intros L. unfold rt.trace, csrapprove.sync.
    rewrite run_bind, run_call. simpl. reflexivity.
  - vm_compute. reflexivity.
Qed.

(** C2 (as the code has it).  The renewal chain of the approver holds
    exactly when the request IS in a terminal state and has the shape of a
    renewal: the cluster label is there, the signer name is empty or the
    configured one, the request decodes to a CERTIFICATE REQUEST block that
    parses, its one Organization is the agent group of the labelled cluster
    and the add-on, its CommonName starts with that group, and the Username
    is the CommonName.  So the renewal request of an agent that is in no
    terminal state fails the chain. *)
Theorem C2_renewal_chain_wants_terminal :
  (∀ (L : x509.Lib) (signer addonName : string)
     (checks : list addoninterface.CSRApproveCheckFunc)
     (csr : certificatesv1.CertificateSigningRequest),
     csrapprove.runChecks
       (csrapprove.renewCheckFuncs
          (csrapprove.NewCSRApprovingController signer addonName checks)) csr false = true
     ↔ csrapprove.IsCSRInTerminalState csr = true ∧ spec.renewalShape signer addonName csr) ∧
  (csrapprove.IsCSRInTerminalState (fixture.NewCSR []) = false ∧
   @spec.renewalShape fixture.agentRequests
     certificatesv1.KubeAPIServerClientSignerName fixture.TestAddon (fixture.NewCSR []) ∧
   csrapprove.runChecks
     (csrapprove.renewCheckFuncs
        (@csrapprove.NewCSRApprovingController fixture.agentRequests
           certificatesv1.KubeAPIServerClientSignerName fixture.TestAddon []))
     (fixture.NewCSR []) false = false).
Proof.
  split.
  - intros L signer addonName checks csr. simpl.
    rewrite <- isSpokeClusterClientCertRenewal_shape.
    destruct (csrapprove.IsCSRInTerminalState csr); [|split; [done | by intros [? _]]].
    destruct (csrapprove.isSpokeClusterClientCertRenewal signer addonName csr);
      split; try done; by intros [_ ?].
  - split; [reflexivity|]. split; [|reflexivity].
    apply (@isSpokeClusterClientCertRenewal_shape fixture.agentRequests). reflexivity.
Qed.

(* ===================================================================== *)
(** ** The spoke certificate manager *)
(* ===================================================================== *)

(** C7 (as stated) fails: an add-on whose annotations say nothing about
    [enable_registration] is not left alone; its reconcile appends the
    registration finalizer and updates the add-on. *)
Lemma C7_counterexample :
  ¬ spec.certManagerWritesNothing (λ an, an !! "enable_registration" ≠ Some "true").
Proof.
  intros Hclaim.
  pose (a := fixture.annotated {[ "installNamespace" := "default" ]}).
  pose (w := fixture.world fixture.NewManagedCluster a [] 1000%Z).
  specialize (Hclaim Fake.World Fake.handle w w
                {| clientcertmanager.clusterName := "testcluster" |} "testaddon" a
                eq_refl).
  assert (Hp : metav1.Annotations (addonapiv1alpha1.ObjectMeta a) !! "enable_registration"
               ≠ Some "true") by (vm_compute; discriminate).
  specialize (Hclaim Hp). vm_compute in Hclaim. discriminate Hclaim.
Qed.

(** C7 (amended).  For every add-on whose annotation map is empty or sets
    [enable_registration] to "false", the reconcile of the certificate
    manager returns nil after reading the add-on from its lister: it makes
    no other call, so no finalizer update and nothing towards an identity
    secret or a CSR. *)
Theorem C7_registration_disabled_no_writes :
  spec.certManagerReturnsAtOnce
    (λ an, size an = 0 ∨ an !! "enable_registration" = Some "false").
Proof.
  intros W h w w1 c addonName addon Hget Han.
  unfold clientcertmanager.sync. rewrite run_bind, run_call, Hget. simpl.
  destruct Han as [Hsize|Hfalse].
  - by rewrite Hsize.
  - destruct (size _ =? 0)%nat; [done|].
    unfold clientcertmanager.index. rewrite Hfalse. reflexivity.
Qed.

Lemma C7_registration_disabled_no_writes_witness :
  let a := fixture.annotated {[ "enable_registration" := "false" ]} in
  let w := fixture.world fixture.NewManagedCluster a [] 1000%Z in
  let c := {| clientcertmanager.clusterName := "testcluster" |} in
  Fake.handle (rt.AddonListerGet "testcluster" "testaddon") w = (Go.Ok a, w) ∧
  (size (metav1.Annotations (addonapiv1alpha1.ObjectMeta a)) = 0 ∨
   metav1.Annotations (addonapiv1alpha1.ObjectMeta a) !! "enable_registration" = Some "false") ∧
  rt.run Fake.handle (clientcertmanager.sync c "testaddon") w
  = (None, w, [rt.AddonListerGet "testcluster" "testaddon"]).
Proof.
  intros a w c.
  assert (H1 : Fake.handle (rt.AddonListerGet "testcluster" "testaddon") w = (Go.Ok a, w))
    by reflexivity.
  assert (H2 : size (metav1.Annotations (addonapiv1alpha1.ObjectMeta a)) = 0 ∨
               metav1.Annotations (addonapiv1alpha1.ObjectMeta a) !! "enable_registration"
               = Some "false") by (right; reflexivity).
  split; [exact H1|]. split; [exact H2|].
  exact (C7_registration_disabled_no_writes Fake.World Fake.handle w w c "testaddon" a H1 H2).
Defined.

(* ===================================================================== *)
(** ** The config annotator *)
(* ===================================================================== *)

(** [MergeMap] lays the required entries over the existing ones and reports
    whether that changed the map. *)
Lemma MergeMap_union (existing required : gmap string string) :
  resourcemerge.MergeMap existing required
  = (bool_decide (required ∪ existing ≠ existing), required ∪ existing).
Proof.
  unfold resourcemerge.MergeMap.
  refine (map_fold_weak_ind
            (λ (r : bool * gmap string string) (m : gmap string string),
               r = (bool_decide (m ∪ existing ≠ existing), m ∪ existing))
            _ _ _ _ required).
  - rewrite (left_id_L ∅ (∪)). by rewrite bool_decide_eq_false_2 by (by intros ?).
  - intros k v m r Hk ->. simpl.
    rewrite <- insert_union_l.
    destruct (decide ((m ∪ existing) !! k = Some v)) as [Hsame|Hnew].
    + by rewrite insert_id.
    + f_equal. symmetry. apply bool_decide_eq_true_2. intros Heq.
      apply Hnew. rewrite lookup_union_r by done.
      rewrite <- Heq. apply lookup_insert_eq.
Qed.

(** What the annotator merges, in the words of the specification. *)
Lemma annotationData_entries (c : config.addonConfigController) (data : Go.bytes) :
  config.enableRegistration c = true →
  config.annotationData c data
  = (if decide (data = []) then ∅
     else {[ "bootstrapSecret" := config.addonName c +:+ "-bootstrap-kubeconfig" ]})
    ∪ {[ "signer" := config.signer c;
         "installNamespace" := config.addonInstallNamespace c;
         "enable_registration" := "true" ]}.
Proof.
  intros Hen. unfold config.annotationData, config.registrationData. rewrite Hen.
  destruct data as [|b data]; simpl.
  - rewrite (left_id_L ∅ (∪)). apply map_eq. intros k.
    repeat (rewrite lookup_insert; case_decide; [done|]). done.
  - rewrite <- insert_union_singleton_l. apply map_eq. intros k.
    repeat (rewrite lookup_insert; case_decide; [done|]). done.
Qed.

(** The reconcile of the annotator, for any controller and any handler:
    the required annotations are laid over the add-on's own, and the add-on
    is updated exactly when that changes them. *)
Lemma config_sync_merges {W : Type} (h : rt.Handler W) (w w1 w2 : W)
    (c : config.addonConfigController) (ns : string)
    (addon : addonapiv1alpha1.ManagedClusterAddOn) (cluster : clusterv1.ManagedCluster)
    (data : Go.bytes) :
  h (rt.AddonListerGet ns (config.addonName c)) w = (Go.Ok addon, w1) →
  h (rt.ClusterListerGet ns) w1 = (Go.Ok cluster, w2) →
  addoninterface.AgentBootstrapKubeConfig (config.agentAddon c) cluster = Go.Ok data →
  let m := addonapiv1alpha1.ObjectMeta addon in
  let merged := config.annotationData c data ∪ metav1.Annotations m in
  let update :=
    rt.AddonUpdate ns (addonapiv1alpha1.withObjectMeta addon (metav1.withAnnotations m merged)) in
  rt.trace h (config.sync c ns) w
  = [rt.AddonListerGet ns (config.addonName c); rt.ClusterListerGet ns]
    ++ (if decide (merged = metav1.Annotations m) then [] else [update]).
Proof.
  intros Hget Hcl Hkube m merged update.
  unfold rt.trace, config.sync.
  rewrite run_bind, run_call, Hget. simpl. rewrite Hcl. simpl. rewrite Hkube.
  rewrite MergeMap_union. fold m. fold merged. simpl.
  destruct (decide (merged = metav1.Annotations m)) as [Heq|Hne].
  - rewrite bool_decide_eq_false_2 by (by intros ?). reflexivity.
  - rewrite bool_decide_eq_true_2 by done. simpl. fold update.
    destruct (h update w2) as [r w3]. reflexivity.
Qed.

(** C8 (as the code has it).  The controller [NewAddonConfigController]
    builds has an empty signer, whatever the registration was configured
    with, since the constructor is not given one; so on a
    registration-enabled add-on with a bootstrap kubeconfig the annotations
    written are installNamespace, enable_registration = "true",
    bootstrapSecret and signer = "". *)
Theorem C8_signer_annotation_is_empty :
  (∀ addonName enableRegistration addonInstallNamespace agentAddon,
     config.signer
       (config.NewAddonConfigController addonName enableRegistration
          addonInstallNamespace agentAddon) = "") ∧
  rt.trace Fake.handle
    (config.sync
       (config.NewAddonConfigController "testaddon" true "default"
          (fixture.agentWithKubeConfig [Byte.x78]))
       "testcluster")
    (fixture.hub 1000%Z)
  = [rt.AddonListerGet "testcluster" "testaddon";
     rt.ClusterListerGet "testcluster";
     rt.AddonUpdate "testcluster"
       (fixture.annotated
          {[ "signer" := "";
             "installNamespace" := "default";
             "enable_registration" := "true";
             "bootstrapSecret" := "testaddon-bootstrap-kubeconfig" ]})].
Proof.
  split; [reflexivity|]. vm_compute. reflexivity.
Qed.

(* ===================================================================== *)
(** ** The deploy reconciler: teardown *)
(* ===================================================================== *)

Section Teardown.
Context `{runtime.Codec} {W : Type} (h : rt.Handler W).

(** The deletes the loop over the listed works issues. *)
Lemma deleteWorks_trace (clusterName : string) (works : list workapiv1.ManifestWork) (w : W) :
  rt.trace h (deploy.deleteWorks clusterName works) w
  = (λ wk, rt.WorkDelete clusterName (metav1.Name (workapiv1.ObjectMeta wk)))
      <$> filter (λ wk, metav1.DeletionTimestamp_IsZero (workapiv1.ObjectMeta wk) = true) works.
Proof.
  unfold rt.trace. revert w. induction works as [|wk works IH]; intros w; [done|].
  simpl. destruct (metav1.DeletionTimestamp_IsZero (workapiv1.ObjectMeta wk)) eqn:Hz.
  - rewrite filter_cons_True by done. simpl.
    destruct (h _ w) as [r w1]. specialize (IH w1).
    destruct (rt.run h (deploy.deleteWorks clusterName works) w1) as [[u w2] tr].
    simpl in *. by rewrite IH.
  - rewrite filter_cons_False by (rewrite Hz; done). apply IH.
Qed.

Lemma removeAddonResources_run (c : deploy.addonDeployController)
    (cluster : clusterv1.ManagedCluster) (works : list workapiv1.ManifestWork) (w w1 : W) :
  labels.IsValidLabelValue (deploy.addonName c) = true →
  let clusterName := metav1.Name (clusterv1.ObjectMeta cluster) in
  let list := rt.WorkListerList clusterName
                [ {| labels.key := deploy.AddonWorkLabel; labels.value := deploy.addonName c |} ] in
  h list w = (Go.Ok works, w1) →
  (works = [] →
     rt.run h (deploy.removeAddonResources c cluster) w = (Go.Return None, w1, [list])) ∧
  (works ≠ [] →
     rt.trace h (deploy.removeAddonResources c cluster) w
       = list :: rt.trace h (deploy.deleteWorks clusterName works) w1 ∧
     rt.final h (deploy.removeAddonResources c cluster) w
       = rt.final h (deploy.deleteWorks clusterName works) w1 ∧
     ∃ e, rt.result h (deploy.removeAddonResources c cluster) w = Go.Return (Some e)).
Proof.
  intros Hvalid clusterName list Hlist.
  unfold deploy.removeAddonResources, labels.NewRequirement. rewrite Hvalid.
  fold clusterName. fold list. split.
  - intros ->. rewrite run_bind, run_call, Hlist. reflexivity.
  - intros Hne. unfold rt.trace, rt.final, rt.result.
    rewrite run_bind, run_call, Hlist. simpl.
    destruct works as [|wk works]; [done|]. simpl length. simpl Nat.eqb. cbv iota.
    rewrite run_bind.
    destruct (rt.run h (deploy.deleteWorks clusterName (wk :: works)) w1) as [[u w2] tr].
    simpl. rewrite app_nil_r. by eauto.
Qed.

Lemma removeAddonFinalizer_run (c : deploy.addonDeployController)
    (addon : addonapiv1alpha1.ManagedClusterAddOn) (w : W) :
  let m := addonapiv1alpha1.ObjectMeta addon in
  let update :=
    rt.AddonUpdate (metav1.Namespace m)
      (addonapiv1alpha1.withObjectMeta addon
         (metav1.withFinalizers m (filter (λ x, x ≠ deploy.addonFinalizer) (metav1.Finalizers m)))) in
  rt.run h (deploy.removeAddonFinalizer c addon) w
  = if decide (deploy.addonFinalizer ∈ metav1.Finalizers m)
    then (rt.errOf (h update w).1, (h update w).2, [update])
    else (None, w, []).
Proof.
  pose proof (removal_shape deploy.addonFinalizer
                (metav1.Namespace (addonapiv1alpha1.ObjectMeta addon)) addon W h w) as Hs.
  cbv zeta in Hs. destruct Hs as [Hin Hout].
  cbv zeta. unfold deploy.removeAddonFinalizer. cbv zeta.
  destruct (decide _) as [Hf|Hf].
  - rewrite (Hin Hf). by rewrite copyExcept_filter.
  - by rewrite (Hout Hf).
Qed.

End Teardown.

(** C4.  When the add-on has a deletion timestamp, the reconcile lists the
    works of the cluster's namespace that carry the add-on's label and
    issues a delete for every listed work that has no deletion timestamp.
    When the list is not empty it returns an error and leaves the add-on
    alone; when the list is empty it removes the deploy finalizer: one
    update of the add-on without it when it was there, nothing otherwise. *)
Theorem C4_teardown `{runtime.Codec} {W : Type} (h : rt.Handler W) (w w1 w2 w3 : W)
    (c : deploy.addonDeployController) (key : string)
    (cluster : clusterv1.ManagedCluster) (addon : addonapiv1alpha1.ManagedClusterAddOn)
    (works : list workapiv1.ManifestWork) :
  let m := addonapiv1alpha1.ObjectMeta addon in
  let clusterName := metav1.Name (clusterv1.ObjectMeta cluster) in
  let list := rt.WorkListerList clusterName
                [ {| labels.key := deploy.AddonWorkLabel; labels.value := deploy.addonName c |} ] in
  let reads := [rt.ClusterListerGet key; rt.AddonListerGet key (deploy.addonName c); list] in
  let deletes :=
    (λ wk, rt.WorkDelete clusterName (metav1.Name (workapiv1.ObjectMeta wk)))
      <$> filter (λ wk, metav1.DeletionTimestamp_IsZero (workapiv1.ObjectMeta wk) = true) works in
  let update :=
    rt.AddonUpdate (metav1.Namespace m)
      (addonapiv1alpha1.withObjectMeta addon
         (metav1.withFinalizers m (filter (λ x, x ≠ deploy.addonFinalizer) (metav1.Finalizers m)))) in
  h (rt.ClusterListerGet key) w = (Go.Ok cluster, w1) →
  h (rt.AddonListerGet key (deploy.addonName c)) w1 = (Go.Ok addon, w2) →
  metav1.DeletionTimestamp_IsZero m = false →
  labels.IsValidLabelValue (deploy.addonName c) = true →
  h list w2 = (Go.Ok works, w3) →
  (works ≠ [] →
     rt.trace h (deploy.sync c key) w = reads ++ deletes ∧
     ∃ e, rt.result h (deploy.sync c key) w = Go.Return (Some e)) ∧
  (works = [] →
     rt.trace h (deploy.sync c key) w
       = reads ++ (if decide (deploy.addonFinalizer ∈ metav1.Finalizers m) then [update] else []) ∧
     rt.result h (deploy.sync c key) w
       = Go.Return (if decide (deploy.addonFinalizer ∈ metav1.Finalizers m)
                    then rt.errOf (h update w3).1 else None)).
Proof.
  intros m clusterName list reads deletes update Hcl Hget Hdel Hvalid Hlist.
  destruct (removeAddonResources_run h c cluster works w2 w3 Hvalid Hlist) as [Hempty Hsome].
  assert (Hsync : rt.run h (deploy.sync c key) w =
            let '(o, w4, tr) := rt.run h (deploy.removeAddonResources c cluster) w2 in
            match o with
            | Go.Return None =>
                let '(e, w5, tr') := rt.run h (deploy.removeAddonFinalizer c addon) w4 in
                (Go.Return e, w5,
                 [rt.ClusterListerGet key; rt.AddonListerGet key (deploy.addonName c)]
                 ++ tr ++ tr')
            | _ => (o, w4,
                    [rt.ClusterListerGet key; rt.AddonListerGet key (deploy.addonName c)] ++ tr)
            end).
  { unfold deploy.sync. rewrite run_bind, run_call, Hcl. simpl.
    rewrite Hget. simpl. fold m. rewrite Hdel. simpl.
    rewrite run_bind.
    destruct (rt.run h (deploy.removeAddonResources c cluster) w2) as [[o w4] tr].
    destruct o as [[e|]|]; simpl; try by rewrite app_nil_r.
    rewrite run_bind.
    destruct (rt.run h (deploy.removeAddonFinalizer c addon) w4) as [[e w5] tr'].
    simpl. by rewrite app_nil_r. }
  split.
  - intros Hne. destruct (Hsome Hne) as (Htr & _ & e & Hres).
    subst deletes reads list clusterName. cbv zeta in Htr.
    rewrite deleteWorks_trace in Htr.
    unfold rt.trace, rt.result in *. rewrite Hsync.
    destruct (rt.run h (deploy.removeAddonResources c cluster) w2) as [[o w4] tr].
    simpl in Htr, Hres. subst o tr. simpl.
    split; [done | by eexists].
  - intros Hnil. specialize (Hempty Hnil).
    unfold rt.trace, rt.result. rewrite Hsync, Hempty.
    pose proof (removeAddonFinalizer_run h c addon w3) as Hrm. cbv zeta in Hrm.
    fold m in Hrm. fold update in Hrm. rewrite Hrm.
    destruct (decide (deploy.addonFinalizer ∈ metav1.Finalizers m)) as [Hf|Hf]; by split.
Qed.

Lemma C4_teardown_witness :
  let w := fixture.teardown in
  let c := fixture.deployController in
  let addon := fixture.finalized [deploy.addonFinalizer] (Some 5%Z) in
  let list := rt.WorkListerList "testcluster"
                [ {| labels.key := deploy.AddonWorkLabel; labels.value := "testaddon" |} ] in
  let works := [fixture.NewManifestWork "addon-testaddon-deploy" None;
                fixture.NewManifestWork "addon-testaddon-other" (Some 7%Z)] in
  Fake.handle (rt.ClusterListerGet "testcluster") w = (Go.Ok fixture.NewManagedCluster, w) ∧
  Fake.handle (rt.AddonListerGet "testcluster" "testaddon") w = (Go.Ok addon, w) ∧
  metav1.DeletionTimestamp_IsZero (addonapiv1alpha1.ObjectMeta addon) = false ∧
  labels.IsValidLabelValue "testaddon" = true ∧
  Fake.handle list w = (Go.Ok works, w) ∧
  rt.trace Fake.handle (@deploy.sync fixture.rawCodec c "testcluster") w
  = [rt.ClusterListerGet "testcluster"; rt.AddonListerGet "testcluster" "testaddon"; list;
     rt.WorkDelete "testcluster" "addon-testaddon-deploy"] ∧
  ∃ e, rt.result Fake.handle (@deploy.sync fixture.rawCodec c "testcluster") w
       = Go.Return (Some e).
Proof.
  intros w c addon list works.
  assert (H1 : Fake.handle (rt.ClusterListerGet "testcluster") w
               = (Go.Ok fixture.NewManagedCluster, w)) by reflexivity.
  assert (H2 : Fake.handle (rt.AddonListerGet "testcluster" "testaddon") w = (Go.Ok addon, w))
    by reflexivity.
  assert (H3 : metav1.DeletionTimestamp_IsZero (addonapiv1alpha1.ObjectMeta addon) = false)
    by reflexivity.
  assert (H4 : labels.IsValidLabelValue "testaddon" = true) by reflexivity.
  assert (H5 : Fake.handle list w = (Go.Ok works, w)) by reflexivity.
  repeat (split; [assumption|]).
  destruct (@C4_teardown fixture.rawCodec Fake.World Fake.handle w w w w c "testcluster"
              fixture.NewManagedCluster addon works H1 H2 H3 H4 H5) as [Hsome _].
  assert (Hne : works ≠ []) by discriminate.
  exact (Hsome Hne).
Defined.

(* ===================================================================== *)
(** ** The deploy reconciler: create or update *)
(* ===================================================================== *)

Lemma rawEqualFrom_spec (new old : list workapiv1.Manifest) (i n : nat) :
  helpers.rawEqualFrom new old i n = true ↔
  ∀ j, i ≤ j < i + n → workapiv1.Raw <$> new !! j = workapiv1.Raw <$> old !! j.
Proof.
  revert i. induction n as [|n IH]; intros i; simpl.
  - split; [intros _ j ?; lia | done].
  - destruct (decide _) as [Heq|Hne].
    + rewrite IH. split.
      * intros Hall j Hj. destruct (decide (j = i)) as [->|?]; [done|]. apply Hall. lia.
      * intros Hall j Hj. apply Hall. lia.
    + split; [done|]. intros Hall. exfalso. apply Hne, Hall. lia.
Qed.

(** [ManifestsEqual] holds exactly when the raw bytes agree element-wise. *)
Lemma ManifestsEqual_spec (new old : list workapiv1.Manifest) :
  helpers.ManifestsEqual new old = true ↔ workapiv1.Raw <$> new = workapiv1.Raw <$> old.
Proof.
  unfold helpers.ManifestsEqual.
  destruct (Nat.eqb_spec (length new) (length old)) as [Hlen|Hlen]; simpl.
  - rewrite rawEqualFrom_spec. split.
    + intros Hall. apply list_eq. intros j. rewrite !list_lookup_fmap.
      destruct (decide (j < length new)) as [Hj|Hj]; [apply Hall; lia|].
      rewrite !lookup_ge_None_2; [done | lia | lia].
    + intros Heq j _. by rewrite <- !list_lookup_fmap, Heq.
  - split; [done|]. intros Heq. exfalso. apply Hlen.
    by rewrite <- (length_fmap workapiv1.Raw new), Heq, length_fmap.
Qed.

Section Apply.
Context `{runtime.Codec}.

(** Reading the add-on configuration changes nothing and depends on the
    configuration cache alone. *)
Lemma getAddonConfig_fake (c : deploy.addonDeployController) (crd cr key : string)
    (w : Fake.World) :
  rt.final Fake.handle (deploy.getAddonConfig c crd cr key) w = w ∧
  List.filter rt.isWrite (rt.trace Fake.handle (deploy.getAddonConfig c crd cr key) w) = [] ∧
  ∀ x, rt.result Fake.handle (deploy.getAddonConfig c crd cr key) (Fake.withWorks w x)
       = rt.result Fake.handle (deploy.getAddonConfig c crd cr key) w.
Proof.
  unfold rt.final, rt.trace, rt.result, deploy.getAddonConfig.
  repeat case_decide; try done.
  destruct (deploy.configLister c); [|done].
  simpl. unfold Fake.get. simpl.
  destruct (Fake.configCache w !! (key, cr)); done.
Qed.

Lemma createOrUpdate_fake (key : string) (work : workapiv1.ManifestWork) (w : Fake.World) :
  let k := (key, metav1.Name (workapiv1.ObjectMeta work)) in
  rt.run Fake.handle (deploy.createOrUpdate key work) w =
  match Fake.works w !! k with
  | None =>
      (Go.Return None, Fake.withWorks w (<[k := work]> (Fake.works w)),
       [rt.WorkGet key (metav1.Name (workapiv1.ObjectMeta work)); rt.WorkCreate key work])
  | Some existing =>
      if decide (workapiv1.Raw <$> workapiv1.Manifests existing
                 = workapiv1.Raw <$> workapiv1.Manifests work)
      then (Go.Return None, w, [rt.WorkGet key (metav1.Name (workapiv1.ObjectMeta work))])
      else
        let updated :=
          workapiv1.withResourceVersion work
            (metav1.ResourceVersion (workapiv1.ObjectMeta existing)) in
        (Go.Return None, Fake.withWorks w (<[k := updated]> (Fake.works w)),
         [rt.WorkGet key (metav1.Name (workapiv1.ObjectMeta work)); rt.WorkUpdate key updated])
  end.
Proof.
  intros k. unfold deploy.createOrUpdate.
  rewrite run_bind, run_call. simpl Fake.handle. unfold Fake.get. fold k.
  destruct (Fake.works w !! k) as [existing|] eqn:Hk; simpl.
  - destruct (decide _) as [Heq|Hne].
    + apply ManifestsEqual_spec in Heq. by rewrite Heq.
    + destruct (helpers.ManifestsEqual _ _) eqn:Hm; [by apply ManifestsEqual_spec in Hm|].
      simpl. fold k. by rewrite Hk.
  - fold k. by rewrite Hk.
Qed.

Lemma applyWork_fake_run (c : deploy.addonDeployController) (key : string)
    (cluster : clusterv1.ManagedCluster) (w : Fake.World)
    (cma : addonapiv1alpha1.ClusterManagementAddOn) (config : option runtime.Object)
    (manifests : list workapiv1.Manifest) :
  Fake.clusterManagementAddOns w !! deploy.addonName c = Some cma →
  rt.result Fake.handle
    (deploy.getAddonConfig c (addonapiv1alpha1.CRDName cma) (addonapiv1alpha1.CRName cma) key) w
    = Some (Go.Ok config) →
  (addoninterface.AgentManifests (deploy.agentAddon c) cluster config).1 ≠ [] →
  deploy.encodeInto (addoninterface.AgentManifests (deploy.agentAddon c) cluster config).1 []
    = Go.Ok manifests →
  ∃ reads,
    List.filter rt.isWrite reads = [] ∧
    ∀ R, R = rt.run Fake.handle (deploy.createOrUpdate key (deploy.builtWork c key manifests)) w →
         rt.run Fake.handle (deploy.applyWork c key cluster) w = (R.1.1, R.1.2, reads ++ R.2).
Proof.
  intros Hcma Hconf Hobjs Henc.
  destruct (getAddonConfig_fake c (addonapiv1alpha1.CRDName cma)
              (addonapiv1alpha1.CRName cma) key w) as (Hfin & Hnow & _).
  unfold rt.final, rt.trace, rt.result in *.
  destruct (rt.run Fake.handle (deploy.getAddonConfig c _ _ key) w) as [[r wc] trc] eqn:Hrun.
  simpl in Hfin, Hnow, Hconf. subst r wc.
  exists (rt.ClusterManagementAddOnGet (deploy.addonName c) :: trc).
  split; [simpl; exact Hnow|].
  intros R HR. unfold deploy.applyWork.
  rewrite run_bind, run_call. simpl Fake.handle. unfold Fake.get. rewrite Hcma.
  cbn [fst snd]. rewrite run_bind, Hrun.
  unfold deploy.buildManifestWorkFromObject.
  destruct (addoninterface.AgentManifests (deploy.agentAddon c) cluster config).1
    as [|o objects] eqn:Ho; [done|].
  change (length (o :: objects) =? 0)%nat with false. cbv iota.
  rewrite Henc. rewrite <- HR.
  destruct R as [[o' w'] tr']. reflexivity.
Qed.

(** The payload is the encoding of the objects, one manifest per object. *)
Lemma encodeInto_spec (objects : list runtime.Object) (acc manifests : list workapiv1.Manifest) :
  deploy.encodeInto objects acc = Go.Ok manifests →
  ∃ encoded, manifests = acc ++ encoded ∧
             Forall2 (λ o m, runtime.Encode o = Go.Ok (workapiv1.Raw m)) objects encoded.
Proof.
  revert acc. induction objects as [|o objects IH]; intros acc; simpl.
  - intros [= <-]. exists []. by rewrite app_nil_r.
  - destruct (runtime.Encode o) as [raw|e] eqn:He; [|done].
    intros (encoded & -> & Hall)%IH.
    exists ({| workapiv1.Raw := raw |} :: encoded). split.
    + by rewrite <- app_assoc.
    + by constructor.
Qed.

(** The reconcile of an add-on that is not being deleted and has the
    finalizer, in the in-memory world: what it writes and the world it
    leaves are those of creating or updating the built work. *)
Lemma sync_fake_apply (c : deploy.addonDeployController) (key : string) (w : Fake.World)
    (cluster : clusterv1.ManagedCluster) (addon : addonapiv1alpha1.ManagedClusterAddOn)
    (cma : addonapiv1alpha1.ClusterManagementAddOn) (config : option runtime.Object)
    (manifests : list workapiv1.Manifest) :
  (Fake.handle (rt.ClusterListerGet key) w).1 = Go.Ok cluster →
  (Fake.handle (rt.AddonListerGet key (deploy.addonName c)) w).1 = Go.Ok addon →
  metav1.DeletionTimestamp_IsZero (addonapiv1alpha1.ObjectMeta addon) = true →
  deploy.addonFinalizer ∈ metav1.Finalizers (addonapiv1alpha1.ObjectMeta addon) →
  Fake.clusterManagementAddOns w !! deploy.addonName c = Some cma →
  rt.result Fake.handle
    (deploy.getAddonConfig c (addonapiv1alpha1.CRDName cma) (addonapiv1alpha1.CRName cma) key) w
    = Some (Go.Ok config) →
  (addoninterface.AgentManifests (deploy.agentAddon c) cluster config).1 ≠ [] →
  deploy.encodeInto (addoninterface.AgentManifests (deploy.agentAddon c) cluster config).1 []
    = Go.Ok manifests →
  rt.writes Fake.handle (deploy.sync c key) w
    = rt.writes Fake.handle (deploy.createOrUpdate key (deploy.builtWork c key manifests)) w ∧
  rt.final Fake.handle (deploy.sync c key) w
    = rt.final Fake.handle (deploy.createOrUpdate key (deploy.builtWork c key manifests)) w.
Proof.
  intros Hcl Hget Hzero Hfin Hcma Hconf Hobjs Henc.
  destruct (applyWork_fake_run c key cluster w cma config manifests Hcma Hconf Hobjs Henc)
    as (reads & Hreads & Hrun).
  specialize (Hrun _ eq_refl).
  unfold rt.writes, rt.final, rt.trace in *. unfold deploy.sync.
  rewrite run_bind, run_call.
  simpl in Hcl, Hget. simpl Fake.handle. cbn [fst snd]. rewrite Hcl.
  rewrite run_bind, run_call. simpl Fake.handle. cbn [fst snd]. rewrite Hget.
  rewrite Hzero. apply has_elem_of in Hfin. rewrite Hfin. cbn [negb andb].
  rewrite Hrun.
  destruct (rt.run Fake.handle (deploy.createOrUpdate key _) w) as [[o w'] tr].
  cbn [fst snd]. split; [|done].
  change ([rt.ClusterListerGet key] ++ [rt.AddonListerGet key (deploy.addonName c)]
          ++ reads ++ tr)
    with ([rt.ClusterListerGet key; rt.AddonListerGet key (deploy.addonName c)]
          ++ reads ++ tr).
  by rewrite !List.filter_app, Hreads.
Qed.

End Apply.

(** C3.  For a cluster and an add-on that are there, the add-on not being
    deleted and carrying the deploy finalizer, once the configuration is
    loaded and the supplier's objects, at least one, are encoded: the work
    [addon-<add-on>-deploy] holds one manifest per object, its encoding; it
    is created when the cluster's namespace has no work of that name; when
    there is one whose raw manifests differ from the new ones, it is
    updated, with the resource version of the existing one; when they
    agree, nothing is written.  And a second reconcile of the same key, in
    the world the first one leaves, writes nothing. *)
Theorem C3_create_or_update `{runtime.Codec}
    (c : deploy.addonDeployController) (key : string) (w : Fake.World)
    (cluster : clusterv1.ManagedCluster) (addon : addonapiv1alpha1.ManagedClusterAddOn)
    (cma : addonapiv1alpha1.ClusterManagementAddOn) (config : option runtime.Object)
    (manifests : list workapiv1.Manifest) :
  let objects := (addoninterface.AgentManifests (deploy.agentAddon c) cluster config).1 in
  let name := "addon-" +:+ deploy.addonName c +:+ "-deploy" in
  let work := deploy.builtWork c key manifests in
  (Fake.handle (rt.ClusterListerGet key) w).1 = Go.Ok cluster →
  (Fake.handle (rt.AddonListerGet key (deploy.addonName c)) w).1 = Go.Ok addon →
  metav1.DeletionTimestamp_IsZero (addonapiv1alpha1.ObjectMeta addon) = true →
  deploy.addonFinalizer ∈ metav1.Finalizers (addonapiv1alpha1.ObjectMeta addon) →
  Fake.clusterManagementAddOns w !! deploy.addonName c = Some cma →
  rt.result Fake.handle
    (deploy.getAddonConfig c (addonapiv1alpha1.CRDName cma) (addonapiv1alpha1.CRName cma) key) w
    = Some (Go.Ok config) →
  objects ≠ [] →
  deploy.encodeInto objects [] = Go.Ok manifests →
  (metav1.Name (workapiv1.ObjectMeta work) = name ∧
   Forall2 (λ o m, runtime.Encode o = Go.Ok (workapiv1.Raw m)) objects manifests) ∧
  (Fake.works w !! (key, name) = None →
     rt.writes Fake.handle (deploy.sync c key) w = [rt.WorkCreate key work]) ∧
  (∀ existing,
     Fake.works w !! (key, name) = Some existing →
     workapiv1.Raw <$> workapiv1.Manifests existing ≠ workapiv1.Raw <$> manifests →
     rt.writes Fake.handle (deploy.sync c key) w
     = [rt.WorkUpdate key
          (workapiv1.withResourceVersion work
             (metav1.ResourceVersion (workapiv1.ObjectMeta existing)))]) ∧
  (∀ existing,
     Fake.works w !! (key, name) = Some existing →
     workapiv1.Raw <$> workapiv1.Manifests existing = workapiv1.Raw <$> manifests →
     rt.writes Fake.handle (deploy.sync c key) w = []) ∧
  rt.writes Fake.handle (deploy.sync c key) (rt.final Fake.handle (deploy.sync c key) w) = [].
Proof.
  intros objects name work Hcl Hget Hzero Hfin Hcma Hconf Hobjs Henc.
  destruct (sync_fake_apply c key w cluster addon cma config manifests
              Hcl Hget Hzero Hfin Hcma Hconf Hobjs Henc) as [Hw Hf].
  pose proof (createOrUpdate_fake key work w) as Hrun. cbv zeta in Hrun.
  change (metav1.Name (workapiv1.ObjectMeta work)) with name in Hrun.
  assert (Hagain : ∀ x existing,
            workapiv1.Raw <$> workapiv1.Manifests existing = workapiv1.Raw <$> manifests →
            rt.writes Fake.handle (deploy.sync c key)
              (Fake.withWorks w (<[(key, name) := existing]> x)) = []).
  { intros x existing Heq.
    destruct (getAddonConfig_fake c (addonapiv1alpha1.CRDName cma)
                (addonapiv1alpha1.CRName cma) key w) as (_ & _ & Hsame).
    destruct (sync_fake_apply c key (Fake.withWorks w (<[(key, name) := existing]> x))
                cluster addon cma config manifests) as [Hw' _]; try done.
    { by rewrite Hsame. }
    rewrite Hw'. unfold rt.writes, rt.trace.
    pose proof (createOrUpdate_fake key work
                  (Fake.withWorks w (<[(key, name) := existing]> x))) as Hrun'.
    cbv zeta in Hrun'. change (metav1.Name (workapiv1.ObjectMeta work)) with name in Hrun'.
    fold work. rewrite Hrun'. simpl Fake.works. rewrite lookup_insert_eq.
    destruct (decide _) as [_|Hne]; [done | by destruct Hne]. }
  split; [|split; [|split; [|split]]].
  - split; [reflexivity|].
    destruct (encodeInto_spec objects [] manifests Henc) as (encoded & -> & Hall). done.
  - intros Hnone. rewrite Hw. unfold rt.writes, rt.trace. fold work.
    by rewrite Hrun, Hnone.
  - intros existing Hsome Hne. rewrite Hw. unfold rt.writes, rt.trace. fold work.
    rewrite Hrun, Hsome. destruct (decide _) as [Heq|_]; [done|]. reflexivity.
  - intros existing Hsome Heq. rewrite Hw. unfold rt.writes, rt.trace. fold work.
    rewrite Hrun, Hsome. destruct (decide _) as [_|Hne]; [done | by destruct Hne].
  - rewrite Hf. unfold rt.final. fold work. rewrite Hrun.
    destruct (Fake.works w !! (key, name)) as [existing|] eqn:Hk.
    + destruct (decide _) as [Heq|Hne]; cbn [fst snd].
      * rewrite Hw. unfold rt.writes, rt.trace. fold work. by rewrite Hrun.
      * by apply Hagain.
    + cbn [fst snd]. by apply Hagain.
Qed.

Lemma C3_create_or_update_witness :
  let c := fixture.deployController in
  let addon := fixture.finalized [deploy.addonFinalizer] None in
  let w := fixture.world fixture.NewManagedCluster addon [] 1000%Z in
  let cma := {| addonapiv1alpha1.cmaName := "testaddon";
                addonapiv1alpha1.CRDName := ""; addonapiv1alpha1.CRName := "" |} in
  let manifests := [ {| workapiv1.Raw := [Byte.x7b; Byte.x7d] |} ] in
  let sync := @deploy.sync fixture.rawCodec c "testcluster" in
  (Fake.handle (rt.ClusterListerGet "testcluster") w).1 = Go.Ok fixture.NewManagedCluster ∧
  (Fake.handle (rt.AddonListerGet "testcluster" "testaddon") w).1 = Go.Ok addon ∧
  metav1.DeletionTimestamp_IsZero (addonapiv1alpha1.ObjectMeta addon) = true ∧
  deploy.addonFinalizer ∈ metav1.Finalizers (addonapiv1alpha1.ObjectMeta addon) ∧
  Fake.clusterManagementAddOns w !! "testaddon" = Some cma ∧
  rt.result Fake.handle (deploy.getAddonConfig c "" "" "testcluster") w = Some (Go.Ok None) ∧
  (addoninterface.AgentManifests (deploy.agentAddon c) fixture.NewManagedCluster None).1 ≠ [] ∧
  @deploy.encodeInto fixture.rawCodec
    (addoninterface.AgentManifests (deploy.agentAddon c) fixture.NewManagedCluster None).1 []
    = Go.Ok manifests ∧
  rt.writes Fake.handle sync w
    = [rt.WorkCreate "testcluster" (deploy.builtWork c "testcluster" manifests)] ∧
  rt.writes Fake.handle sync (rt.final Fake.handle sync w) = [].
Proof.
  intros c addon w cma manifests sync.
  assert (H1 : (Fake.handle (rt.ClusterListerGet "testcluster") w).1
               = Go.Ok fixture.NewManagedCluster) by reflexivity.
  assert (H2 : (Fake.handle (rt.AddonListerGet "testcluster" "testaddon") w).1 = Go.Ok addon)
    by reflexivity.
  assert (H3 : metav1.DeletionTimestamp_IsZero (addonapiv1alpha1.ObjectMeta addon) = true)
    by reflexivity.
  assert (H4 : deploy.addonFinalizer ∈ metav1.Finalizers (addonapiv1alpha1.ObjectMeta addon))
    by (left).
  assert (H5 : Fake.clusterManagementAddOns w !! "testaddon" = Some cma) by reflexivity.
  assert (H6 : rt.result Fake.handle (deploy.getAddonConfig c "" "" "testcluster") w
               = Some (Go.Ok None)) by reflexivity.
  assert (H7 : (addoninterface.AgentManifests (deploy.agentAddon c)
                  fixture.NewManagedCluster None).1 ≠ []) by discriminate.
  assert (H8 : @deploy.encodeInto fixture.rawCodec
                 (addoninterface.AgentManifests (deploy.agentAddon c)
                    fixture.NewManagedCluster None).1 [] = Go.Ok manifests) by reflexivity.
  repeat (split; [assumption|]).
  destruct (@C3_create_or_update fixture.rawCodec c "testcluster" w fixture.NewManagedCluster
              addon cma None manifests H1 H2 H3 H4 H5 H6 H7 H8)
    as (_ & Hcreate & _ & _ & Hsecond).
  split; [|exact Hsecond].
  apply Hcreate. reflexivity.
Defined.

(* ===================================================================== *)
(** ** Conditions *)
(* ===================================================================== *)

Lemma FindStatusCondition_app (cs : list metav1.Condition) (c : metav1.Condition) (t : string) :
  meta.FindStatusCondition cs t = None →
  metav1.Type_ c = t →
  meta.FindStatusCondition (cs ++ [c]) t = Some c.
Proof.
  intros Hnone Ht. induction cs as [|x cs IH]; simpl in *.
  - by rewrite decide_True.
  - destruct (decide (metav1.Type_ x = t)); [done | by apply IH].
Qed.

Lemma FindStatusCondition_setExisting (cs : list metav1.Condition) (t : string)
    (f : metav1.Condition → metav1.Condition) (c : metav1.Condition) :
  meta.FindStatusCondition cs t = Some c →
  metav1.Type_ (f c) = t →
  meta.FindStatusCondition (meta.setExisting cs t f) t = Some (f c).
Proof.
  intros Hsome Ht. induction cs as [|x cs IH]; simpl in *; [done|].
  destruct (decide (metav1.Type_ x = t)) as [Hx|Hx]; simpl.
  - injection Hsome as ->. by rewrite decide_True.
  - rewrite decide_False by done. by apply IH.
Qed.

Lemma FindStatusCondition_type (cs : list metav1.Condition) (t : string) (c : metav1.Condition) :
  meta.FindStatusCondition cs t = Some c → metav1.Type_ c = t.
Proof.
  induction cs as [|x cs IH]; simpl; [done|].
  destruct (decide (metav1.Type_ x = t)); [by intros [= <-] | done].
Qed.

(** The condition [SetStatusCondition] leaves under the type of the new
    condition has its status, reason and message, whatever the clock says. *)
Lemma SetStatusCondition_sets {W : Type} (h : rt.Handler W) (w : W)
    (cs : list metav1.Condition) (cond : metav1.Condition) :
  ∃ c, meta.FindStatusCondition (rt.result h (meta.SetStatusCondition cs cond) w)
         (metav1.Type_ cond) = Some c ∧
       metav1.Status c = metav1.Status cond ∧
       metav1.Reason c = metav1.Reason cond ∧
       metav1.Message c = metav1.Message cond.
Proof.
  unfold rt.result, meta.SetStatusCondition.
  destruct (meta.FindStatusCondition cs (metav1.Type_ cond)) as [existing|] eqn:Hfind.
  - pose proof (FindStatusCondition_type _ _ _ Hfind) as Hty.
    destruct (decide _) as [Hst|Hst]; [|destruct (negb _)]; simpl.
    + eexists. split; [by apply FindStatusCondition_setExisting|]. by simpl.
    + eexists. split; [by apply FindStatusCondition_setExisting|]. by simpl.
    + destruct (h rt.TimeNow w) as [now w1]. simpl.
      eexists. split; [by apply FindStatusCondition_setExisting|]. by simpl.
  - destruct (Go.IsZero _); simpl.
    + destruct (h rt.TimeNow w) as [now w1]. simpl.
      eexists. split; [by apply FindStatusCondition_app|]. by simpl.
    + eexists. split; [by apply FindStatusCondition_app|]. done.
Qed.

(** In the in-memory world, setting a condition reads the clock at most and
    leaves the stored add-ons alone. *)
Lemma SetStatusCondition_fake (w : Fake.World) (cs : list metav1.Condition)
    (cond : metav1.Condition) :
  Fake.addons (rt.final Fake.handle (meta.SetStatusCondition cs cond) w) = Fake.addons w.
Proof.
  unfold rt.final, meta.SetStatusCondition.
  destruct (meta.FindStatusCondition cs (metav1.Type_ cond)) as [existing|].
  - destruct (decide _); [done|]. by destruct (negb _).
  - by destruct (Go.IsZero _).
Qed.

Lemma withStatus_same (a : addonapiv1alpha1.ManagedClusterAddOn) :
  addonapiv1alpha1.withStatus a (addonapiv1alpha1.Status a) = a.
Proof. by destruct a. Qed.

(** [UpdateAddonStatus] with one condition to set, in the in-memory world
    that stores the add-on under its own name: it returns no error, the
    stored add-on ends with the condition, nothing else about it changes,
    and no other stored add-on is touched. *)
Lemma UpdateAddonStatus_fake_condition (ns name : string) (cond : metav1.Condition)
    (w : Fake.World) (stored : addonapiv1alpha1.ManagedClusterAddOn) :
  Fake.addons w !! (ns, name) = Some stored →
  metav1.Name (addonapiv1alpha1.ObjectMeta stored) = name →
  let p := helpers.UpdateAddonStatus ns name [helpers.UpdateAddonConditionFn cond] in
  ∃ newStatus,
    (rt.result Fake.handle p w).2 = None ∧
    Fake.addons (rt.final Fake.handle p w)
      = <[(ns, name) := addonapiv1alpha1.withStatus stored newStatus]> (Fake.addons w) ∧
    spec.hasCondition newStatus (metav1.Type_ cond) (metav1.Status cond) (metav1.Reason cond).
Proof.
  intros Hstored Hname p.
  assert (Hget : Fake.handle (rt.AddonGet ns name) w = (Go.Ok stored, w)).
  { simpl. unfold Fake.get. by rewrite Hstored. }
  destruct (SetStatusCondition_sets Fake.handle w
              (addonapiv1alpha1.Conditions (addonapiv1alpha1.Status stored)) cond)
    as (c & Hfind & Hst & Hre & _).
  pose proof (SetStatusCondition_fake w
                (addonapiv1alpha1.Conditions (addonapiv1alpha1.Status stored)) cond) as Hsame.
  unfold rt.result in Hfind. unfold rt.final in Hsame.
  destruct (rt.run Fake.handle
              (meta.SetStatusCondition
                 (addonapiv1alpha1.Conditions (addonapiv1alpha1.Status stored)) cond) w)
    as [[cs' w2] tr] eqn:Hset.
  simpl in Hfind, Hsame.
  set (newStatus := {| addonapiv1alpha1.Conditions := cs';
                       addonapiv1alpha1.RelatedObjects :=
                         addonapiv1alpha1.RelatedObjects (addonapiv1alpha1.Status stored) |}).
  assert (Hupd : rt.run Fake.handle
                   (helpers.applyUpdates [helpers.UpdateAddonConditionFn cond]
                      (addonapiv1alpha1.Status stored)) w
                 = (Go.Ok newStatus, w2, tr)).
  { unfold helpers.applyUpdates, helpers.UpdateAddonConditionFn.
    rewrite !run_bind, Hset. simpl. by rewrite !app_nil_r. }
  exists newStatus. split; [|split; [|by exists c]].
  - subst p. unfold rt.result, helpers.UpdateAddonStatus, retry.RetryOnConflict.
    rewrite run_bind. change retry.DefaultBackoffSteps with 4. rewrite OnError_S, run_bind.
    destruct (decide (newStatus = addonapiv1alpha1.Status stored)) as [Heq|Hne].
    + rewrite Heq in Hupd.
      rewrite (updateAttempt_equal Fake.handle ns name _ _ w w w2 stored tr Hget Hupd).
      reflexivity.
    + rewrite (updateAttempt_write Fake.handle ns name _ _ w w w2 stored newStatus tr
                 Hget Hupd Hne).
      simpl Fake.handle. rewrite Hname, Hsame, Hstored. reflexivity.
  - subst p. unfold rt.final, helpers.UpdateAddonStatus, retry.RetryOnConflict.
    rewrite run_bind. change retry.DefaultBackoffSteps with 4. rewrite OnError_S, run_bind.
    destruct (decide (newStatus = addonapiv1alpha1.Status stored)) as [Heq|Hne].
    + rewrite Heq in Hupd |- *.
      rewrite (updateAttempt_equal Fake.handle ns name _ _ w w w2 stored tr Hget Hupd).
      cbn [fst snd]. simpl. rewrite Hsame, withStatus_same. by rewrite insert_id.
    + rewrite (updateAttempt_write Fake.handle ns name _ _ w w w2 stored newStatus tr
                 Hget Hupd Hne).
      simpl Fake.handle. rewrite Hname, Hsame, Hstored. reflexivity.
Qed.

(* ===================================================================== *)
(** ** The spoke add-on lease observer *)
(* ===================================================================== *)

Lemma checkFrom_fresh (now : Go.Time) (leases : list coordv1.Lease) :
  Forall (λ l, is_Some (coordv1.RenewTime l)) leases →
  (∃ l t, l ∈ leases ∧ coordv1.RenewTime l = Some t ∧
          (now < t + 5 * 60 * 1000000000)%Z) →
  spokelease.checkFrom now leases = Some spokelease.updatedCondition.
Proof.
  intros Hall (l & t & Hin & Ht & Hfresh).
  induction leases as [|x leases IH]; [by apply elem_of_nil in Hin|].
  apply Forall_cons in Hall as [[tx Hx] Hall]. simpl. rewrite Hx.
  destruct (Go.Before now (Go.Add tx spokelease.gracePeriod)) eqn:Hb; [done|].
  apply elem_of_cons in Hin as [->|Hin]; [|by apply IH].
  exfalso. rewrite Hx in Ht. injection Ht as ->.
  unfold Go.Before, Go.Add, spokelease.gracePeriod, spokelease.addonLeaseDurationTimes,
    spokelease.AddonLeaseDurationSeconds, Go.Second in Hb.
  apply Z.ltb_ge in Hb. lia.
Qed.

Lemma checkFrom_stale (now : Go.Time) (leases : list coordv1.Lease) :
  (∀ l, l ∈ leases → ∃ t, coordv1.RenewTime l = Some t ∧
                          (t + 5 * 60 * 1000000000 ≤ now)%Z) →
  spokelease.checkFrom now leases = Some spokelease.stoppedCondition.
Proof.
  intros Hall. induction leases as [|x leases IH]; [done|].
  destruct (Hall x) as (t & Ht & Hstale); [by left|]. simpl. rewrite Ht.
  destruct (Go.Before now (Go.Add t spokelease.gracePeriod)) eqn:Hb.
  - exfalso.
    unfold Go.Before, Go.Add, spokelease.gracePeriod, spokelease.addonLeaseDurationTimes,
      spokelease.AddonLeaseDurationSeconds, Go.Second in Hb.
    apply Z.ltb_lt in Hb. lia.
  - apply IH. intros l Hl. apply Hall. by right.
Qed.

Lemma fresh_or_stale (now : Go.Time) (leases : list coordv1.Lease) :
  Forall (λ l, is_Some (coordv1.RenewTime l)) leases →
  (∃ l t, l ∈ leases ∧ coordv1.RenewTime l = Some t ∧ (now < t + 5 * 60 * 1000000000)%Z) ∨
  (∀ l, l ∈ leases → ∃ t, coordv1.RenewTime l = Some t ∧ (t + 5 * 60 * 1000000000 ≤ now)%Z).
Proof.
  induction 1 as [|x leases [t Ht] _ IH].
  - right. intros l Hl. by apply elem_of_nil in Hl.
  - destruct (decide (now < t + 5 * 60 * 1000000000)%Z) as [Hlt|Hge].
    + left. exists x, t. split; [by left | done].
    + destruct IH as [(l & t' & Hin & Ht' & Hlt)|Hall].
      * left. exists l, t'. split; [by right | done].
      * right. intros l [->|Hin]%elem_of_cons; [|by apply Hall].
        exists t. split; [done | lia].
Qed.

Section LeaseObserver.
Context `{labels.Parser}.

Lemma conditionFor_fake (name : string) (w : Fake.World) :
  labels.Parse ("open-cluster-management-addon=" +:+ name)
    = Go.Ok [ {| labels.key := "open-cluster-management-addon"; labels.value := name |} ] →
  let p := spokelease.conditionFor name in
  Fake.addons (rt.final Fake.handle p w) = Fake.addons w ∧
  rt.result Fake.handle p w
  = match spec.labelledFor name w with
    | [] => Some spokelease.notFoundCondition
    | leases => spokelease.checkFrom (Fake.clock w (Fake.ticks w)) leases
    end.
Proof.
  intros Hparse p. subst p.
  unfold rt.final, rt.result, spokelease.conditionFor, spokelease.getLeaseByAddonName.
  rewrite Hparse. rewrite !run_bind, run_call. simpl Fake.handle. cbn [fst snd].
  assert (Hext : List.filter
                   (λ x : coordv1.Lease,
                      bool_decide
                        (metav1.Labels (coordv1.ObjectMeta x)
                           !! "open-cluster-management-addon" = Some name) && true)
                   (Fake.leaseCache w) = spec.labelledFor name w).
  { unfold spec.labelledFor. apply List.filter_ext. intros l. by rewrite andb_true_r. }
  rewrite Hext. simpl.
  destruct (spec.labelledFor name w) as [|l leases]; simpl; done.
Qed.

End LeaseObserver.

(** C5.  The reconcile of one add-on by the spoke lease observer, in the
    in-memory world that stores the add-on, with the selector of the
    add-on's label parsed and every labelled lease carrying a renew time:
    the stored add-on ends with the condition Degraded, which is True with
    reason AddonLeaseNotFound when no lease carries the add-on's label,
    False with reason ManagedClusterLeaseUpdated when some labelled lease
    has its renew time plus 5 x 60 s after now, and True with reason
    AddonLeaseUpdateStopped when there are labelled leases and none is that
    fresh; the observer then goes on to the next add-on. *)
Theorem C5_addon_lease_condition `{labels.Parser}
    (c : spokelease.addonLeaseController) (addon stored : addonapiv1alpha1.ManagedClusterAddOn)
    (w : Fake.World) :
  let name := metav1.Name (addonapiv1alpha1.ObjectMeta addon) in
  let leases := spec.labelledFor name w in
  let now := Fake.clock w (Fake.ticks w) in
  let p := spokelease.syncAddon c addon in
  labels.Parse ("open-cluster-management-addon=" +:+ name)
    = Go.Ok [ {| labels.key := "open-cluster-management-addon"; labels.value := name |} ] →
  Fake.addons w !! (spokelease.clusterName c, name) = Some stored →
  metav1.Name (addonapiv1alpha1.ObjectMeta stored) = name →
  Forall (λ l, is_Some (coordv1.RenewTime l)) leases →
  ∃ stored',
    Fake.addons (rt.final Fake.handle p w) !! (spokelease.clusterName c, name) = Some stored' ∧
    rt.result Fake.handle p w = None ∧
    (leases = [] →
       spec.hasCondition (addonapiv1alpha1.Status stored')
         "Degraded" "True" "AddonLeaseNotFound") ∧
    ((∃ l t, l ∈ leases ∧ coordv1.RenewTime l = Some t ∧
             (now < t + 5 * 60 * 1000000000)%Z) →
       spec.hasCondition (addonapiv1alpha1.Status stored')
         "Degraded" "False" "ManagedClusterLeaseUpdated") ∧
    (leases ≠ [] →
     (∀ l t, l ∈ leases → coordv1.RenewTime l = Some t →
             (t + 5 * 60 * 1000000000 ≤ now)%Z) →
       spec.hasCondition (addonapiv1alpha1.Status stored')
         "Degraded" "True" "AddonLeaseUpdateStopped").
Proof.
  intros name leases now p Hparse Hstored Hname Hrenew.
  destruct (conditionFor_fake name w Hparse) as [Hsame Hcond]. fold leases now in Hcond.
  assert (Hsettled : ∃ cond,
            rt.result Fake.handle (spokelease.conditionFor name) w = Some cond ∧
            metav1.Type_ cond = "Degraded" ∧
            (leases = [] → cond = spokelease.notFoundCondition) ∧
            ((∃ l t, l ∈ leases ∧ coordv1.RenewTime l = Some t ∧
                     (now < t + 5 * 60 * 1000000000)%Z) →
               cond = spokelease.updatedCondition) ∧
            (leases ≠ [] →
             (∀ l t, l ∈ leases → coordv1.RenewTime l = Some t →
                     (t + 5 * 60 * 1000000000 ≤ now)%Z) →
               cond = spokelease.stoppedCondition)).
  { destruct (decide (leases = [])) as [Hnil|Hsome].
    - rewrite Hnil in Hcond. eexists. split; [exact Hcond|]. split; [done|].
      split; [done|]. split; [|done].
      intros (l & t & Hin & _). rewrite Hnil in Hin. by apply elem_of_nil in Hin.
    - assert (Hc : rt.result Fake.handle (spokelease.conditionFor name) w
                   = spokelease.checkFrom now leases).
      { rewrite Hcond. by destruct leases. }
      destruct (fresh_or_stale now leases Hrenew) as [Hfresh|Hall].
      + exists spokelease.updatedCondition. rewrite Hc, (checkFrom_fresh now leases Hrenew Hfresh).
        repeat split; try done. intros _ Hall. exfalso.
        destruct Hfresh as (l & t & Hin & Ht & Hlt). specialize (Hall l t Hin Ht). lia.
      + exists spokelease.stoppedCondition. rewrite Hc, (checkFrom_stale now leases Hall).
        repeat split; try done.
        intros (l & t & Hin & Ht & Hlt). exfalso.
        destruct (Hall l Hin) as (t' & Ht' & Hge). rewrite Ht in Ht'. injection Ht' as <-. lia. }
  destruct Hsettled as (cond & Hres & Hty & Hnone & Hfresh & Hstale).
  unfold rt.final, rt.result in Hsame, Hres.
  destruct (rt.run Fake.handle (spokelease.conditionFor name) w) as [[r w1] t1] eqn:Hrun.
  simpl in Hsame, Hres. subst r.
  assert (Hstored1 : Fake.addons w1 !! (spokelease.clusterName c, name) = Some stored)
    by (by rewrite Hsame).
  destruct (UpdateAddonStatus_fake_condition (spokelease.clusterName c) name cond w1 stored
              Hstored1 Hname) as (newStatus & Herr & Hfinal & Hhas).
  exists (addonapiv1alpha1.withStatus stored newStatus).
  assert (Hp : rt.run Fake.handle p w =
            let '(r, w2, t2) :=
              rt.run Fake.handle
                (helpers.UpdateAddonStatus (spokelease.clusterName c) name
                   [helpers.UpdateAddonConditionFn cond]) w1 in
            (None, w2, t1 ++ t2 ++ (if r.1.2 then [rt.Eventf "AddonAvailableConditionUpdated"]
                                    else []))).
  { subst p. unfold spokelease.syncAddon. fold name. rewrite run_bind, Hrun.
    rewrite run_bind. unfold rt.result in Herr.
    destruct (rt.run Fake.handle (helpers.UpdateAddonStatus _ _ _) w1) as [[r w2] t2].
    simpl in Herr. rewrite Herr. destruct r.1.2; simpl; by rewrite ?app_nil_r. }
  unfold rt.final, rt.result in *. rewrite Hp.
  destruct (rt.run Fake.handle (helpers.UpdateAddonStatus _ _ _) w1) as [[r w2] t2].
  simpl in Hfinal |- *. rewrite Hfinal, lookup_insert_eq.
  split; [done|]. split; [done|].
  rewrite Hty in Hhas. simpl.
  split; [|split].
  - intros Hn. by rewrite (Hnone Hn) in Hhas.
  - intros Hf. by rewrite (Hfresh Hf) in Hhas.
  - intros Hn Hs. by rewrite (Hstale Hn Hs) in Hhas.
Qed.

Lemma C5_addon_lease_condition_witness :
  let c := {| spokelease.clusterName := "testcluster" |} in
  let w := fixture.world fixture.NewManagedCluster fixture.NewAddon
             [fixture.NewAddonLease 900%Z "ns1"] 1000%Z in
  let p := @spokelease.syncAddon fixture.equalityParser c fixture.NewAddon in
  @labels.Parse fixture.equalityParser ("open-cluster-management-addon=" +:+ "testaddon")
    = Go.Ok [ {| labels.key := "open-cluster-management-addon"; labels.value := "testaddon" |} ] ∧
  Fake.addons w !! ("testcluster", "testaddon") = Some fixture.NewAddon ∧
  metav1.Name (addonapiv1alpha1.ObjectMeta fixture.NewAddon) = "testaddon" ∧
  Forall (λ l, is_Some (coordv1.RenewTime l)) (spec.labelledFor "testaddon" w) ∧
  ∃ stored',
    Fake.addons (rt.final Fake.handle p w) !! ("testcluster", "testaddon") = Some stored' ∧
    spec.hasCondition (addonapiv1alpha1.Status stored')
      "Degraded" "False" "ManagedClusterLeaseUpdated".
Proof.
  intros c w p.
  assert (H1 : @labels.Parse fixture.equalityParser
                 ("open-cluster-management-addon=" +:+ "testaddon")
               = Go.Ok [ {| labels.key := "open-cluster-management-addon";
                            labels.value := "testaddon" |} ]) by reflexivity.
  assert (H2 : Fake.addons w !! ("testcluster", "testaddon") = Some fixture.NewAddon)
    by reflexivity.
  assert (H3 : metav1.Name (addonapiv1alpha1.ObjectMeta fixture.NewAddon) = "testaddon")
    by reflexivity.
  assert (H4 : Forall (λ l, is_Some (coordv1.RenewTime l)) (spec.labelledFor "testaddon" w)).
  { repeat constructor. by eexists. }
  repeat (split; [assumption|]).
  destruct (@C5_addon_lease_condition fixture.equalityParser c fixture.NewAddon
              fixture.NewAddon w H1 H2 H3 H4) as (stored' & Hfinal & _ & _ & Hfresh & _).
  exists stored'. split; [exact Hfinal|]. apply Hfresh.
  exists (fixture.NewAddonLease 900%Z "ns1"), 900%Z.
  split; [left|]. split; [reflexivity|]. vm_compute. reflexivity.
Defined.

(* ===================================================================== *)
(** ** The hub liveness reconciler *)
(* ===================================================================== *)









(* ===================================================================== *)
(** ** The lease tests of the repository, replayed *)
(* ===================================================================== *)

(** "there is no lease for an addon" *)
Example spoke_no_lease (now : Go.Time) :
  fixture.spokePass [] now = [fixture.statusUpdate spokelease.notFoundCondition now].
Proof. reflexivity. Qed.

(** "addon agent stop update lease" *)
Example spoke_stale_lease :
  fixture.spokePass
    [fixture.NewAddonLease (400000000000 - fixture.fiveMinutes)%Z "ns1"] 400000000000%Z
  = [fixture.statusUpdate spokelease.stoppedCondition 400000000000%Z].
Proof. vm_compute. reflexivity. Qed.

(** "addon agent is available" *)
Example spoke_healthy_lease :
  fixture.spokePass [fixture.NewAddonLease 400000000000%Z "ns1"] 400000000000%Z
  = [fixture.statusUpdate spokelease.updatedCondition 400000000000%Z].
Proof. vm_compute. reflexivity. Qed.

(** "multiple leases, one is available" *)
Example spoke_two_leases_healthy :
  fixture.spokePass
    [fixture.NewAddonLease 400000000000%Z "ns1"; fixture.NewAddonLease 400000000000%Z "ns2"]
    400000000000%Z
  = [fixture.statusUpdate spokelease.updatedCondition 400000000000%Z].
Proof. vm_compute. reflexivity. Qed.

(** "multiple leases, none is available" *)
Example spoke_two_leases_stale :
  fixture.spokePass
    [fixture.NewAddonLease (400000000000 - fixture.fiveMinutes)%Z "ns1";
     fixture.NewAddonLease (400000000000 - fixture.fiveMinutes)%Z "ns2"]
    400000000000%Z
  = [fixture.statusUpdate spokelease.stoppedCondition 400000000000%Z].
Proof. vm_compute. reflexivity. Qed.

(** "sync managed cluster": the lease is created, the add-ons are left alone. *)
Example hub_creates_lease :
  fixture.hubPass [] 400000000000%Z
  = [rt.LeaseCreate "testcluster" (hublease.newLease "testcluster" 400000000000%Z)].
Proof. vm_compute. reflexivity. Qed.

(** "managed cluster stop update lease" *)
Example hub_stale_lease :
  fixture.hubPass
    [fixture.NewAddonManagerLease (400000000000 - fixture.fiveMinutes)%Z] 400000000000%Z
  = [rt.AddonGet "testcluster" "testaddon";
     fixture.statusUpdate hublease.unknownCondition 400000000000%Z].
Proof. vm_compute. reflexivity. Qed.

(** "managed cluster is available" *)
Example hub_healthy_lease :
  fixture.hubPass [fixture.NewAddonManagerLease 400000000000%Z] 400000000000%Z = [].
Proof. vm_compute. reflexivity. Qed.

(** A hub lease controller out of its constructor has no cluster lister:
    its reconcile panics before any call. *)
Example hub_constructor_leaves_lister_unset {W : Type} (h : rt.Handler W) (w : W) :
  rt.run h (hublease.sync hublease.NewAddonLeaseController) w = (Go.Panic, w, []).
Proof. reflexivity. Qed.
